(** * Action registry and resolution (mistral/services/action_manager.py)

    A shallow embedding of the action manager: the registry sync
    ([sync_db], [register_action_classes]), the resolver
    ([get_action_class]), the context detector
    ([_has_action_context_param], [_get_action_context]), the factory
    ([create_action], [_create_adhoc_action]) and the ad-hoc composer
    ([resolve_adhoc_action_name], [convert_adhoc_action_params],
    [convert_adhoc_action_result]).

    Python statements that touch the database, the task dictionary or a
    collaborator are written in a state-and-exception monad over a [world]
    holding the persisted registry, the task object and the list of calls
    made to collaborators. *)

From Stdlib Require Import Ascii.
From stdpp Require Import gmap strings list fin_maps.

Set Warnings "-register-all".

(** ** Python values *)

(** JSON-like values: what task parameters, contexts, attribute
    descriptors and expression trees are made of. *)
Inductive value : Type :=
| VNone
| VBool (b : bool)
| VInt (n : Z)
| VStr (s : string)
| VList (items : list value)
| VDict (items : list (string * value)).

(** A Python [dict] with string keys, in insertion order. *)
Abbreviation pydict := (list (string * value)).

(** Python truthiness, the test behind [if x:], [not x] and [x or y]. *)
Definition truthy (v : value) : bool :=
  match v with
  | VNone => false
  | VBool b => b
  | VInt n => negb (n =? 0)%Z
  | VStr s => negb (String.eqb s "")
  | VList items => match items with [] => false | _ :: _ => true end
  | VDict items => match items with [] => false | _ :: _ => true end
  end.

(** [d.get(k)]: the value bound to [k], if any. *)
Fixpoint dict_get (d : pydict) (k : string) : option value :=
  match d with
  | [] => None
  | (k', v) :: rest => if String.eqb k' k then Some v else dict_get rest k
  end.

(** [d[k] = v]: rebinds [k] in place when present, appends it otherwise. *)
Fixpoint dict_set (d : pydict) (k : string) (v : value) : pydict :=
  match d with
  | [] => [(k, v)]
  | (k', v') :: rest =>
      if String.eqb k' k then (k', v) :: rest else (k', v') :: dict_set rest k v
  end.

(** [d.update(other)]. *)
Definition dict_update (d other : pydict) : pydict :=
  fold_left (fun acc kv => dict_set acc kv.1 kv.2) other d.

(** [s.replace(old, new)] for single characters. *)
Fixpoint str_replace (old new : Ascii.ascii) (s : string) : string :=
  match s with
  | EmptyString => EmptyString
  | String c rest =>
      String (if Ascii.eqb c old then new else c) (str_replace old new rest)
  end.

(** ** Exceptions *)

Inductive exn : Type :=
| ActionException (msg : string)      (* mistral.exceptions.ActionException *)
| DBDuplicateEntry (msg : string)     (* mistral.exceptions.DBDuplicateEntry *)
| AttributeError (msg : string)
| TypeError (msg : string)
| KeyError (key : string)
| Raised (what : string).             (* raised inside a collaborator *)

(** ** Registry records, classes, tasks *)

(** A row of the actions table, the [values] dictionary of
    [_register_action_in_db]. *)
Record action_record : Type := ActionRecord {
  name : string;
  action_class : string;
  attributes : value;
  description : option string;
  is_system : bool
}.

(** What [action_factory.construct_action_class] hands back: the class
    located by the dotted path, carrying the stored attributes. *)
Record action_cls : Type := ActionCls {
  cls_path : string;
  cls_attributes : value
}.

(** An ad-hoc action specification as the workbook parser exposes it:
    [clazz], [base_parameters] and [output], and its [%s] rendering. *)
Record action_spec : Type := ActionSpec {
  clazz : string;
  base_parameters : value;
  output : value;
  spec_str : string
}.

(** The workbook specification object: [get_action] and its rendering. *)
Record workbook : Type := Workbook {
  get_action : string -> option action_spec;
  workbook_str : string
}.

(** The task dictionary [db_task]: the keys ['task_spec'], ['action_spec']
    (here [raw_action_spec], as the code's local variable), ['workbook_name'],
    ['execution_id'], ['id'], ['name'], ['tags'], ['parameters'] and
    ['in_context']. [parameters] is [None] for Python's [None], which the
    code allows for ([db_task['parameters'] or {}]). No key is rebound by
    this module; the dictionary under ['parameters'] is updated in place. *)
Record db_task : Type := DbTask {
  task_spec : value;
  raw_action_spec : value;
  workbook_name : string;
  execution_id : string;
  task_id : string;
  task_name : string;
  task_tags : value;
  parameters : option pydict;
  in_context : pydict
}.

(** What the factory returns: an instance of a registered class built from
    keyword arguments, or [std_actions.AdHocAction] applied to the action
    context, the base class, the action specification and the keyword
    arguments. The class [AdHocAction] is not among the sources: its
    instance is kept as the arguments it was given. *)
Inductive action : Type :=
| Instance (cls : action_cls) (kwargs : pydict)
| AdHocAction (action_context : value) (base_cls : action_cls)
    (spec : action_spec) (kwargs : pydict).

(** ** The world *)

(** Calls that leave this module. *)
Inductive event : Type :=
| EvCreateAction (values : action_record)   (* db_api.create_action *)
| EvDeleteActions (system : bool)           (* db_api.delete_actions *)
| EvGetAction (action_name : string)        (* db_api.load_action *)
| EvBegin                                   (* entering db_api.transaction *)
| EvCommit
| EvRollback
| EvEvaluate (tree context : value)         (* expr.evaluate_recursively *)
| EvConstruct (cls : action_cls) (kwargs : pydict).  (* calling the class *)

Definition is_registry_write (e : event) : bool :=
  match e with
  | EvCreateAction _ | EvDeleteActions _ => true
  | _ => false
  end.

Record world : Type := World {
  registry : gmap string action_record;  (* the persisted actions table *)
  task : db_task;                        (* the object [db_task] refers to *)
  trace : list event                     (* collaborator calls so far *)
}.

Definition with_registry (r : gmap string action_record) (w : world) : world :=
  {| registry := r; task := task w; trace := trace w |}.

Definition with_task (t : db_task) (w : world) : world :=
  {| registry := registry w; task := t; trace := trace w |}.

Definition with_parameters (p : option pydict) (t : db_task) : db_task :=
  {| task_spec := task_spec t; raw_action_spec := raw_action_spec t;
     workbook_name := workbook_name t; execution_id := execution_id t;
     task_id := task_id t; task_name := task_name t; task_tags := task_tags t;
     parameters := p; in_context := in_context t |}.

Definition emit (e : event) (w : world) : world :=
  {| registry := registry w; task := task w; trace := trace w ++ [e] |}.

(** ** The monad: state plus exceptions *)

Definition M (A : Type) : Type := world -> (exn + A) * world.

Definition ret {A} (a : A) : M A := fun w => (inr a, w).

Definition raise {A} (e : exn) : M A := fun w => (inl e, w).

Definition bind {A B} (m : M A) (k : A -> M B) : M B :=
  fun w =>
    match m w with
    | (inr a, w') => k a w'
    | (inl e, w') => (inl e, w')
    end.

Notation "x <- m ;; k" := (bind m (fun x => k))
  (at level 100, m at next level, right associativity).
Notation "m ;;; k" := (bind m (fun _ => k))
  (at level 100, right associativity).

(** [try: body except DBDuplicateEntry: handler]. *)
Definition try_except_duplicate {A} (body : M A) (handler : M A) : M A :=
  fun w =>
    match body w with
    | (inl (DBDuplicateEntry _), w') => handler w'
    | other => other
    end.

(** [try: body except Exception as e: handler e]. *)
Definition try_except {A} (body : M A) (handler : exn -> M A) : M A :=
  fun w =>
    match body w with
    | (inl e, w') => handler e w'
    | other => other
    end.

(** [for x in xs: body x]. *)
Fixpoint for_each {A} (xs : list A) (body : A -> M unit) : M unit :=
  match xs with
  | [] => ret tt
  | x :: rest => body x ;;; for_each rest body
  end.

Definition call (e : event) : M unit := fun w => (inr tt, emit e w).

Definition get_task : M db_task := fun w => (inr (task w), w).

Definition lift {A} (r : string + A) : M A :=
  match r with
  | inl what => raise (Raised what)
  | inr a => ret a
  end.

(** ** Persistence façade (mistral.db.v2.api) *)

(** Modelled from the spec: [db_api.create_action] is missing from the
    sources; section 6 gives [create(record) -> record | DuplicateKeyError]
    over records with a globally unique [name]. *)
Definition db_create_action (values : action_record) : M unit :=
  call (EvCreateAction values) ;;;
  fun w =>
    match registry w !! name values with
    | Some _ => (inl (DBDuplicateEntry (name values)), w)
    | None => (inr tt, with_registry (<[name values := values]> (registry w)) w)
    end.

(** Modelled from the spec: [db_api.delete_actions] is missing from the
    sources; section 6 gives [delete(filter)], here with the one filter the
    module uses, [is_system=...]. *)
Definition db_delete_actions (system : bool) : M unit :=
  call (EvDeleteActions system) ;;;
  fun w =>
    (inr tt,
     with_registry (filter (fun kv => is_system kv.2 <> system) (registry w)) w).

(** Modelled from the spec: [db_api.load_action] is missing from the
    sources; section 6 gives [get(name) -> record | NotFound], and the
    caller tests the result for truth, so not-found is [None]. *)
Definition db_load_action (action_name : string) : M (option action_record) :=
  call (EvGetAction action_name) ;;;
  fun w => (inr (registry w !! action_name), w).

(** Modelled from the spec: [db_api.transaction] is missing from the
    sources; section 6 gives a scoped unit of work: the writes of the body
    are kept when it returns and undone when it raises. A write made
    outside any unit of work takes effect at once. *)
Definition transaction {A} (body : M A) : M A :=
  fun w =>
    match body (emit EvBegin w) with
    | (inr a, w') => (inr a, emit EvCommit w')
    | (inl e, w') => (inl e, emit EvRollback (with_registry (registry w) w'))
    end.

(** ** Registry sync *)

Section Sync.

(** A loaded implementation object (a plugin class, or a class produced by
    a generator), and [i_utils.get_public_fields], which may raise. *)
Context {plugin : Type}.
Variable get_public_fields : plugin -> string + value.

(** A stevedore extension of the namespace ['mistral.actions']. *)
Record extension : Type := Extension {
  ext_name : string;
  entry_point_target : string;
  ext_plugin : plugin
}.

(** A dynamic action generator: namespace, [__module__] and [__name__] of
    its base class, and the outcome of [create_action_classes()]. *)
Record generator : Type := Generator {
  action_namespace : string;
  base_action_module : string;
  base_action_name : string;
  create_action_classes : string + list (string * plugin)
}.

(** [extension.ExtensionManager(namespace='mistral.actions')] and
    [generator_factory.all_generators()]. *)
Variable mgr : list extension.
Variable all_generators : list generator.

(** [mgr.names()]: the names in load order. *)
Definition mgr_names : list string := map ext_name mgr.

(** [mgr[name]]: the by-name dictionary keeps the last extension loaded
    under a name. *)
Definition mgr_getitem (n : string) : M extension :=
  match List.find (fun e => String.eqb (ext_name e) n) (rev mgr) with
  | Some e => ret e
  | None => raise (KeyError n)
  end.

Definition _register_action_in_db (nm cls : string) (attrs : value)
    (descr : option string) : M unit :=
  let values :=
    {| name := nm; action_class := cls; attributes := attrs;
       description := descr; is_system := true |} in
  try_except_duplicate (db_create_action values) (ret tt).

Definition _clear_system_action_db : M unit := db_delete_actions true.

Definition _register_dynamic_action_classes : M unit :=
  for_each all_generators (fun g =>
    action_classes <- lift (create_action_classes g) ;;
    let action_class_str :=
      base_action_module g +:+ "." +:+ base_action_name g in
    for_each action_classes (fun item =>
      let full_action_name := action_namespace g +:+ "." +:+ item.1 in
      attrs <- lift (get_public_fields item.2) ;;
      _register_action_in_db full_action_name action_class_str attrs None)).

Definition register_plugin (nm : string) : M unit :=
  e1 <- mgr_getitem nm ;;
  let action_class_str := str_replace ":"%char "."%char (entry_point_target e1) in
  e2 <- mgr_getitem nm ;;
  attrs <- lift (get_public_fields (ext_plugin e2)) ;;
  _register_action_in_db nm action_class_str attrs None.

Definition register_action_classes : M unit :=
  transaction
    (for_each mgr_names register_plugin ;;;
     _register_dynamic_action_classes).

Definition sync_db : M unit :=
  _clear_system_action_db ;;;
  register_action_classes.

End Sync.

(** ** Resolver, context detector, factory and ad-hoc composer *)

(** [str(e)] for the exceptions of this model. *)
Definition str_exn (e : exn) : string :=
  match e with
  | ActionException msg | DBDuplicateEntry msg | AttributeError msg
  | TypeError msg | KeyError msg | Raised msg => msg
  end.

(** [x is not None]. *)
Definition is_not_none (v : value) : bool :=
  match v with VNone => false | _ => true end.

(** What a local variable bound by [db_task['parameters'] or {}] refers
    to: the task's own dictionary, or a dictionary of its own. *)
Inductive dict_ref : Type :=
| TaskParameters
| Local (d : pydict).

(** [db_task['parameters'] or {}]: the task's dictionary itself when it is
    a non-empty mapping, a fresh empty one otherwise. *)
Definition parameters_or_empty : M dict_ref :=
  t <- get_task ;;
  ret (match parameters t with
       | Some d => if truthy (VDict d) then TaskParameters else Local []
       | None => Local []
       end).

(** [ref[k] = v]. *)
Definition setitem (r : dict_ref) (k : string) (v : value) : M dict_ref :=
  match r with
  | Local d => ret (Local (dict_set d k v))
  | TaskParameters =>
      fun w =>
        match parameters (task w) with
        | Some d =>
            (inr TaskParameters,
             with_task (with_parameters (Some (dict_set d k v)) (task w)) w)
        | None =>
            (inl (TypeError "'NoneType' object does not support item assignment"),
             w)
        end
  end.

(** Reading the dictionary behind a reference, as keyword unpacking does. *)
Definition deref (r : dict_ref) : M pydict :=
  match r with
  | Local d => ret d
  | TaskParameters =>
      t <- get_task ;;
      match parameters t with
      | Some d => ret d
      | None => raise (TypeError "argument after ** must be a mapping, not NoneType")
      end
  end.

(** [db_task['parameters'].update(other)]. *)
Definition task_parameters_update (other : pydict) : M unit :=
  fun w =>
    match parameters (task w) with
    | Some d =>
        (inr tt,
         with_task (with_parameters (Some (dict_update d other)) (task w)) w)
    | None =>
        (inl (AttributeError "'NoneType' object has no attribute 'update'"), w)
    end.

(** Modelled from the spec: [action_factory.construct_action_class] is
    missing from the sources; section 4.2 gives a handle built from the
    implementation reference and the attributes, never an instance. *)
Definition construct_action_class (path : string) (attrs : value) : action_cls :=
  {| cls_path := path; cls_attributes := attrs |}.

Definition _ACTION_CTX_PARAM : string := "action_context".

Section Factory.

(** [spec_parser.get_task_spec(raw).get_full_action_name()] and
    [spec_parser.get_action_spec(raw)]. *)
Variable get_full_action_name : value -> string.
Variable get_action_spec : value -> action_spec.

(** [inspect.getargspec(action_cls.__init__)] for a class: the argument
    names, or the exception [inspect] raises when [__init__] is not a
    Python function (a slot wrapper, as in a class that defines none). And
    the outcome of the same call when [action_cls] is [None]: the slot
    wrapper [None.__init__] is rejected with [TypeError] by the [inspect]
    of Python 2.7 and accepted, with no such argument, from Python 3.4 on. *)
Variable getargspec_init : action_cls -> exn + list string.
Variable getargspec_none : exn + list string.

(** Whether calling the class with these keyword arguments raises. *)
Variable init_raises : action_cls -> pydict -> option string.

(** What calling [std_actions.AdHocAction] with the action context, the
    base class, the action specification and these keyword arguments
    raises, if anything: [TypeError] when a keyword collides with one of
    its positional parameters, or what its [__init__] raises. The class is
    not among the sources. *)
Variable adhoc_raises :
  value -> action_cls -> action_spec -> pydict -> option exn.

(** [%s] of the task dictionary. *)
Variable str_db_task : db_task -> string.

(** [expr.evaluate_recursively], total over JSON-like trees. *)
Variable evaluate_recursively : value -> value -> value.

Definition evaluate (tree context : value) : M value :=
  call (EvEvaluate tree context) ;;;
  ret (evaluate_recursively tree context).

Definition construct (cls : action_cls) (kwargs : pydict) : M action :=
  call (EvConstruct cls kwargs) ;;;
  match init_raises cls kwargs with
  | Some what => raise (Raised what)
  | None => ret (Instance cls kwargs)
  end.

(** The call of [std_actions.AdHocAction], outside any [try]. *)
Definition construct_adhoc (action_context : value) (base_cls : action_cls)
    (spec : action_spec) (kwargs : pydict) : M action :=
  match adhoc_raises action_context base_cls spec kwargs with
  | Some e => raise e
  | None => ret (AdHocAction action_context base_cls spec kwargs)
  end.

Definition get_action_db (action_name : string) : M (option action_record) :=
  db_load_action action_name.

Definition get_action_class (action_full_name : string) : M (option action_cls) :=
  action_db <- get_action_db action_full_name ;;
  match action_db with
  | Some r =>
      ret (Some (construct_action_class (action_class r) (attributes r)))
  | None => ret None
  end.

Definition _get_action_context (t : db_task) (openstack_context : value) : value :=
  let result :=
    [("workbook_name", VStr (workbook_name t));
     ("execution_id", VStr (execution_id t));
     ("task_id", VStr (task_id t));
     ("task_name", VStr (task_name t));
     ("task_tags", task_tags t)] in
  VDict (if truthy openstack_context
         then dict_update result [("openstack", openstack_context)]
         else result).

Definition _has_action_context_param (cls : option action_cls) : M bool :=
  match cls with
  | Some c =>
      match getargspec_init c with
      | inl e => raise e
      | inr args => ret (bool_decide (_ACTION_CTX_PARAM ∈ args))
      end
  | None =>
      match getargspec_none with
      | inl e => raise e
      | inr args => ret (bool_decide (_ACTION_CTX_PARAM ∈ args))
      end
  end.

Definition _create_adhoc_action (openstack_context : value) : M (option action) :=
  t <- get_task ;;
  let full_action_name := get_full_action_name (task_spec t) in
  let raw := raw_action_spec t in
  if negb (truthy raw) then ret None
  else
    let spec := get_action_spec raw in
    base_cls <- get_action_class (clazz spec) ;;
    has <- _has_action_context_param base_cls ;;
    let action_context :=
      if has then _get_action_context t openstack_context else VNone in
    match base_cls with
    | None =>
        raise (ActionException
          ("Ad-hoc action base class is not registered [workbook_name="
           +:+ workbook_name t +:+ ", action=" +:+ full_action_name
           +:+ ", base_class=None]"))
    | Some cls =>
        action_params <- parameters_or_empty ;;
        kwargs <- deref action_params ;;
        a <- construct_adhoc action_context cls spec kwargs ;;
        ret (Some a)
    end.

Definition create_action : M action :=
  t <- get_task ;;
  let full_action_name := get_full_action_name (task_spec t) in
  action_cls <- get_action_class full_action_name ;;
  let openstack_ctx := default VNone (dict_get (in_context t) "openstack") in
  match action_cls with
  | None =>
      (if is_not_none openstack_ctx
       then task_parameters_update [("openstack", openstack_ctx)]
       else ret tt) ;;;
      act <- _create_adhoc_action openstack_ctx ;;
      match act with
      | Some a => ret a
      | None =>
          raise (ActionException
            ("Unknown action [workbook_name=" +:+ workbook_name t
             +:+ ", action=" +:+ full_action_name +:+ "]"))
      end
  | Some cls =>
      action_params <- parameters_or_empty ;;
      has <- _has_action_context_param (Some cls) ;;
      action_params <-
        (if has
         then setitem action_params _ACTION_CTX_PARAM
                (_get_action_context t openstack_ctx)
         else ret action_params) ;;
      try_except
        (kwargs <- deref action_params ;; construct cls kwargs)
        (fun e =>
           t' <- get_task ;;
           raise (ActionException
             ("Failed to create action [db_task=" +:+ str_db_task t'
              +:+ "]: " +:+ str_exn e)))
  end.

Definition resolve_adhoc_action_name (wb : workbook) (action_name : string)
    : M string :=
  match get_action wb action_name with
  | None =>
      raise (ActionException
        ("Ad-hoc action class is not registered [workbook="
         +:+ workbook_str wb +:+ ", action=" +:+ action_name
         +:+ ", action_spec=None]"))
  | Some spec =>
      base_cls <- get_action_class (clazz spec) ;;
      match base_cls with
      | None =>
          raise (ActionException
            ("Ad-hoc action base class is not registered [workbook="
             +:+ workbook_str wb +:+ ", action=" +:+ action_name
             +:+ ", base_class=None]"))
      | Some _ => ret (clazz spec)
      end
  end.

Definition convert_adhoc_action_params (wb : workbook) (action_name : string)
    (params : value) : M value :=
  match get_action wb action_name with
  | None =>
      raise (AttributeError "'NoneType' object has no attribute 'base_parameters'")
  | Some spec =>
      let base_params := base_parameters spec in
      if negb (truthy base_params) then ret (VDict [])
      else evaluate base_params params
  end.

Definition convert_adhoc_action_result (wb : workbook) (action_name : string)
    (result : value) : M value :=
  match get_action wb action_name with
  | None => raise (AttributeError "'NoneType' object has no attribute 'output'")
  | Some spec =>
      let transformer := output spec in
      if negb (truthy transformer) then ret result
      else evaluate transformer result
  end.

End Factory.

(** ** Vocabulary of the statements *)

(** The records a sync leaves alone: those with [is_system] false. *)
Definition user_records (r : gmap string action_record)
    : gmap string action_record :=
  filter (fun kv => is_system kv.2 <> true) r.

(** The records a sync replaces: the system-action set. *)
Definition system_records (r : gmap string action_record)
    : gmap string action_record :=
  filter (fun kv => is_system kv.2 = true) r.

(** What every statement run inside the sync satisfies: its outcome and
    the registry it leaves depend on the registry alone; it leaves the user
    records as they are; it never ends in a duplicate-entry error; and it
    removes no record. *)
Record sync_step {A} (m : M A) : Prop := SyncStep {
  step_det : forall w w', registry w = registry w' ->
    (m w).1 = (m w').1 /\ registry (m w).2 = registry (m w').2;
  step_users : forall w,
    user_records (registry (m w).2) = user_records (registry w);
  step_no_duplicate : forall w msg, (m w).1 <> inl (DBDuplicateEntry msg);
  step_keeps : forall w k,
    is_Some (registry w !! k) -> is_Some (registry (m w).2 !! k)
}.

(** [registers k m]: whenever [m] returns, the registry holds a record
    named [k]. *)
Definition registers {A} (k : string) (m : M A) : Prop :=
  forall w a, (m w).1 = inr a -> is_Some (registry (m w).2 !! k).

(** [returns P m]: [m] returns from every world, with a value in [P]. *)
Definition returns {A} (P : A -> Prop) (m : M A) : Prop :=
  forall w, exists a, (m w).1 = inr a /\ P a.

(** Every attribute extraction and every generator returns. *)
Definition discovery_returns {plugin : Type}
    (get_public_fields : plugin -> string + value)
    (mgr : list (@extension plugin))
    (all_generators : list (@generator plugin)) : Prop :=
  (forall e, e ∈ mgr ->
     exists attrs, get_public_fields (ext_plugin e) = inr attrs) /\
  (forall g, g ∈ all_generators ->
     exists classes, create_action_classes g = inr classes /\
       forall item, item ∈ classes ->
         exists attrs, get_public_fields item.2 = inr attrs).

(** The two keys the factory itself writes into a parameters mapping. *)
Definition reserved_key (k : string) : bool :=
  String.eqb k "openstack" || String.eqb k _ACTION_CTX_PARAM.

(** An absent mapping stays absent; a mapping keeps the value of every key
    that is not reserved. *)
Definition parameters_frame (p p' : option pydict) : Prop :=
  match p, p' with
  | None, None => True
  | Some d, Some d' =>
      forall k, reserved_key k = false -> dict_get d' k = dict_get d k
  | _, _ => False
  end.

(** No registry write, only reads and constructor calls added to the
    trace, and a task that differs at most in its parameters mapping, there
    at most under the reserved keys. *)
Definition read_only (w w' : world) : Prop :=
  registry w' = registry w /\
  (exists evs, trace w' = trace w ++ evs /\
     forallb (fun e => negb (is_registry_write e)) evs = true) /\
  task w' = with_parameters (parameters (task w')) (task w) /\
  parameters_frame (parameters (task w)) (parameters (task w')).

Definition framed {A} (m : M A) : Prop := forall w, read_only w (m w).2.

(** An insert of a system record, as the trace shows it. *)
Definition system_insert (e : event) : Prop :=
  match e with
  | EvCreateAction values => is_system values = true
  | _ => False
  end.

(** What a statement run inside the unit of work of the sync does to the
    world: it keeps every record there is, writes only under names in [S],
    raises only exceptions in [E], calls nothing but inserts of system
    records, and leaves the task alone. *)
Record sync_effect (S : string -> Prop) (E : exn -> Prop) {A} (m : M A)
    : Prop := SyncEffect {
  eff_keeps : forall w k r,
    registry w !! k = Some r -> registry (m w).2 !! k = Some r;
  eff_touches : forall w k,
    registry (m w).2 !! k = registry w !! k \/ S k;
  eff_raises : forall w e, (m w).1 = inl e -> E e;
  eff_trace : forall w, exists evs,
    trace (m w).2 = trace w ++ evs /\ Forall system_insert evs;
  eff_task : forall w, task (m w).2 = task w
}.

(** The names one discovery pass registers: the plugin names and the
    namespaced names of the generated classes. *)
Definition discovered_name {plugin : Type} (mgr : list (@extension plugin))
    (all_generators : list (@generator plugin)) (k : string) : Prop :=
  k ∈ mgr_names mgr \/
  exists g classes item,
    g ∈ all_generators /\ create_action_classes g = inr classes /\
    item ∈ classes /\ k = action_namespace g +:+ "." +:+ item.1.

(** The exceptions discovery itself raises: what attribute extraction
    raised on a plugin or on a generated class, or what a generator raised. *)
Definition discovery_raised {plugin : Type}
    (get_public_fields : plugin -> string + value)
    (mgr : list (@extension plugin))
    (all_generators : list (@generator plugin)) (e : exn) : Prop :=
  exists what, e = Raised what /\
    ((exists x, x ∈ mgr /\ get_public_fields (ext_plugin x) = inl what) \/
     (exists g, g ∈ all_generators /\
        (create_action_classes g = inl what \/
         exists classes item,
           create_action_classes g = inr classes /\ item ∈ classes /\
           get_public_fields item.2 = inl what))).

(** The record [register_action_classes] builds for a plugin. *)
Definition plugin_record {plugin : Type} (e : @extension plugin)
    (attrs : value) : action_record :=
  {| name := ext_name e;
     action_class := str_replace ":"%char "."%char (entry_point_target e);
     attributes := attrs; description := None; is_system := true |}.

(** The world [create_action] leaves for a registered class. *)
Definition resolved_world (w : world) (full : string) (cls : action_cls)
    (has : bool) (context : value) : world :=
  let params := default [] (parameters (task w)) in
  let kwargs := if has then dict_set params _ACTION_CTX_PARAM context else params in
  {| registry := registry w;
     task := if has && truthy (VDict params)
             then with_parameters (Some kwargs) (task w) else task w;
     trace := trace w ++ [EvGetAction full; EvConstruct cls kwargs] |}.

(** The world [create_action] hands to the ad-hoc look-up once the name
    turned out not to be registered. *)
Definition unresolved_world (w : world) (full : string) (openstack_ctx : value)
    : world :=
  {| registry := registry w;
     task := if is_not_none openstack_ctx
             then with_parameters
                    (option_map (fun d => dict_set d "openstack" openstack_ctx)
                       (parameters (task w))) (task w)
             else task w;
     trace := trace w ++ [EvGetAction full] |}.

(** ** Sample deployment, used by the closed examples *)

(** [inspect.getargspec(None.__init__)] on Python 2.7. *)
Definition py27_getargspec_none : exn + list string :=
  inl (TypeError
         "<method-wrapper '__init__' of NoneType object> is not a Python function").

(** The same call from Python 3.4 on. *)
Definition py34_getargspec_none : exn + list string := inr ["self"].

(** Plugins given by what attribute extraction makes of them. *)
Definition sample_get_public_fields (p : string + value) : string + value := p.

Definition sample_full_action_name (raw : value) : string :=
  match raw with VStr s => s | _ => "" end.

Definition sample_action_spec (raw : value) : action_spec :=
  match raw with
  | VDict d =>
      {| clazz := match dict_get d "class" with Some (VStr s) => s | _ => "" end;
         base_parameters := default VNone (dict_get d "base-parameters");
         output := default VNone (dict_get d "output");
         spec_str := "<ActionSpec>" |}
  | _ => {| clazz := ""; base_parameters := VNone; output := VNone;
            spec_str := "<ActionSpec>" |}
  end.

Definition sample_init_args (cls : action_cls) : list string :=
  if String.eqb (cls_path cls) "mistral.actions.std_actions.EchoAction"
  then ["self"; "output"]
  else ["self"; "action_context"; "url"].

Definition sample_init_raises (cls : action_cls) (kwargs : pydict)
    : option string := None.

(** Every sample class has a Python [__init__], except the one located at
    ["mistral.actions.std_actions.NoInit"]. *)
Definition sample_getargspec (cls : action_cls) : exn + list string :=
  if String.eqb (cls_path cls) "mistral.actions.std_actions.NoInit"
  then inl (TypeError "<slot wrapper '__init__' of 'object' objects> is not a Python function")
  else inr (sample_init_args cls).

(** [AdHocAction] rejects a keyword named [self], which collides with the
    instance it is called on. *)
Definition sample_adhoc_raises (action_context : value) (cls : action_cls)
    (spec : action_spec) (kwargs : pydict) : option exn :=
  match dict_get kwargs "self" with
  | Some _ =>
      Some (TypeError "__init__() got multiple values for keyword argument 'self'")
  | None => None
  end.

Definition sample_str_db_task (t : db_task) : string :=
  "<db_task " +:+ task_id t +:+ ">".

(** A stand-in evaluator: a tree without expressions evaluates to itself. *)
Definition sample_evaluate (tree context : value) : value := tree.

Definition echo_record : action_record :=
  {| name := "std.echo";
     action_class := "mistral.actions.std_actions.EchoAction";
     attributes := VDict []; description := None; is_system := true |}.

Definition http_record : action_record :=
  {| name := "std.http";
     action_class := "mistral.actions.std_actions.HTTPAction";
     attributes := VDict []; description := None; is_system := true |}.

Definition user_record : action_record :=
  {| name := "my.action"; action_class := "my.module.MyAction";
     attributes := VDict []; description := Some "user defined";
     is_system := false |}.

Definition sample_registry : gmap string action_record :=
  {[ "std.echo" := echo_record; "std.http" := http_record;
     "my.action" := user_record ]}.

Definition sample_task (action_name : string) (spec : value)
    (params : option pydict) (context : pydict) : db_task :=
  {| task_spec := VStr action_name; raw_action_spec := spec;
     workbook_name := "wb"; execution_id := "exec-1"; task_id := "task-1";
     task_name := "task1"; task_tags := VList [VStr "foo"];
     parameters := params; in_context := context |}.

Definition sample_world (t : db_task) : world :=
  {| registry := sample_registry; task := t; trace := [] |}.

Definition echo_task : db_task :=
  sample_task "std.echo" VNone (Some [("output", VStr "hi")]) [].

Definition http_task : db_task :=
  sample_task "std.http" VNone (Some [("url", VStr "http://host")]) [].

Definition openstack_ctx_sample : value := VDict [("auth_token", VStr "secret")].

(** A task naming no registered action, carrying no ad-hoc specification,
    with a platform context and no parameters. *)
Definition unknown_task_without_parameters : db_task :=
  sample_task "nonexistent.action" VNone None
    [("openstack", openstack_ctx_sample)].

(** The same with a parameters mapping. *)
Definition unknown_task : db_task :=
  sample_task "nonexistent.action" VNone (Some [("x", VInt 1)])
    [("openstack", openstack_ctx_sample)].

(** A task whose ad-hoc specification wraps a class that is not registered. *)
Definition adhoc_task_missing_base : db_task :=
  sample_task "demo.greet" (VDict [("class", VStr "std.missing")])
    (Some [("who", VStr "Ann")]) [].

(** A task whose ad-hoc specification wraps [std.echo]. *)
Definition adhoc_task : db_task :=
  sample_task "demo.greet" (VDict [("class", VStr "std.echo")])
    (Some [("who", VStr "Ann")]) [].

(** Discovery in which the second plugin cannot be introspected. *)
Definition failing_mgr : list (@extension (string + value)) :=
  [ {| ext_name := "std.echo";
       entry_point_target := "mistral.actions.std_actions:EchoAction";
       ext_plugin := inr (VDict []) |};
    {| ext_name := "std.broken";
       entry_point_target := "mistral.actions.std_actions:Broken";
       ext_plugin := inl "boom" |} ].

(** Discovery that lists [std.echo] twice. *)
Definition repeating_mgr : list (@extension (string + value)) :=
  [ {| ext_name := "std.echo";
       entry_point_target := "mistral.actions.std_actions:EchoAction";
       ext_plugin := inr (VDict []) |};
    {| ext_name := "std.echo";
       entry_point_target := "mistral.actions.std_actions:EchoAction";
       ext_plugin := inr (VDict []) |} ].

Definition sample_generators : list (@generator (string + value)) :=
  [ {| action_namespace := "nova";
       base_action_module := "mistral.actions.openstack.actions";
       base_action_name := "NovaAction";
       create_action_classes := inr [("servers_list", inr (VDict []))] |} ].

Definition greet_spec : action_spec :=
  {| clazz := "std.echo";
     base_parameters := VDict [("output", VStr "<% $.who %> says hi")];
     output := VDict [("greeting", VStr "<% $.echoed %>")];
     spec_str := "<ActionSpec demo.greet>" |}.

(** An ad-hoc action with no base parameters and an output transform that
    is present but empty. *)
Definition bare_spec : action_spec :=
  {| clazz := "std.echo"; base_parameters := VNone; output := VDict [];
     spec_str := "<ActionSpec demo.bare>" |}.

(** An ad-hoc action with no output transform at all. *)
Definition plain_spec : action_spec :=
  {| clazz := "std.echo"; base_parameters := VDict []; output := VNone;
     spec_str := "<ActionSpec demo.plain>" |}.

(** An ad-hoc action over a base class that is not registered. *)
Definition orphan_spec : action_spec :=
  {| clazz := "std.missing"; base_parameters := VNone; output := VNone;
     spec_str := "<ActionSpec demo.orphan>" |}.

Definition sample_workbook : workbook :=
  {| get_action := fun action_name =>
       if String.eqb action_name "demo.greet" then Some greet_spec
       else if String.eqb action_name "demo.bare" then Some bare_spec
       else if String.eqb action_name "demo.plain" then Some plain_spec
       else if String.eqb action_name "demo.orphan" then Some orphan_spec
       else None;
     workbook_str := "<Workbook wb>" |}.

(** A registry holding the user record only. *)
Definition user_only_world : world :=
  {| registry := {[ "my.action" := user_record ]}; task := echo_task;
     trace := [] |}.

(** The extension [repeating_mgr] answers with under ["std.echo"]. *)
Definition echo_extension : @extension (string + value) :=
  {| ext_name := "std.echo";
     entry_point_target := "mistral.actions.std_actions:EchoAction";
     ext_plugin := inr (VDict []) |}.

Definition nova_record : action_record :=
  {| name := "nova.servers_list";
     action_class := "mistral.actions.openstack.actions.NovaAction";
     attributes := VDict []; description := None; is_system := true |}.



(** ** The monad and the registry primitives *)

Lemma bind_ret_l {A B} (a : A) (f : A -> M B) : bind (ret a) f = f a.
Proof. reflexivity. Qed.

Lemma user_records_idemp r : user_records (user_records r) = user_records r.
Proof.
  unfold user_records. apply map_eq. intros k.
  rewrite !map_lookup_filter. destruct (r !! k) as [x|] eqn:E; simpl; [|done].
  case_guard; simpl; [|done]. by rewrite option_guard_True.
Qed.

Lemma sync_step_ret {A} (a : A) : sync_step (ret a).
Proof. split; simpl; intros; try done. Qed.

Lemma sync_step_raise {A} (e : exn) :
  (forall msg, e <> DBDuplicateEntry msg) -> sync_step (@raise A e).
Proof. intros He. split; simpl; intros; try done. intros [= ->]. by eapply He. Qed.

Lemma sync_step_bind {A B} (m : M A) (k : A -> M B) :
  sync_step m -> (forall a, sync_step (k a)) -> sync_step (bind m k).
Proof.
  intros Hm Hk. split.
  - intros w w' Hw. unfold bind.
    destruct (step_det m Hm w w' Hw) as [H1 H2].
    destruct (m w) as [[e|a] w1], (m w') as [[e'|a'] w1']; simpl in *;
      simplify_eq; try done.
    by apply (step_det _ (Hk _)).
  - intros w. unfold bind. pose proof (step_users m Hm w) as H.
    destruct (m w) as [[e|a] w1]; simpl in *; [done|].
    by rewrite (step_users _ (Hk a)).
  - intros w msg. unfold bind. pose proof (step_no_duplicate m Hm w msg) as H.
    destruct (m w) as [[e|a] w1]; simpl in *; [intros [= ->]; by apply H|].
    apply (step_no_duplicate _ (Hk a)).
  - intros w k0 Hin. unfold bind. pose proof (step_keeps m Hm w k0 Hin) as H.
    destruct (m w) as [[e|a] w1]; simpl in *; [done|].
    by apply (step_keeps _ (Hk a)).
Qed.

Lemma sync_step_for_each {A} (xs : list A) (body : A -> M unit) :
  (forall x, sync_step (body x)) -> sync_step (for_each xs body).
Proof.
  intros Hb. induction xs as [|x xs IH]; simpl.
  - apply sync_step_ret.
  - apply sync_step_bind; [apply Hb | intros _; apply IH].
Qed.

Lemma sync_step_lift {A} (r : string + A) : sync_step (lift r).
Proof.
  destruct r; simpl; [apply sync_step_raise; discriminate | apply sync_step_ret].
Qed.

(** One registration: the insert is the only call made, and it ends
    normally whether or not the name was taken. *)
Lemma register_in_db_run nm cls attrs descr w :
  let values := {| name := nm; action_class := cls; attributes := attrs;
                   description := descr; is_system := true |} in
  _register_action_in_db nm cls attrs descr w =
    (inr tt,
     match registry w !! nm with
     | Some _ => emit (EvCreateAction values) w
     | None => with_registry (<[nm := values]> (registry w))
                 (emit (EvCreateAction values) w)
     end).
Proof.
  simpl. unfold _register_action_in_db, try_except_duplicate, db_create_action,
    bind, call. simpl. by destruct (registry w !! nm).
Qed.

Lemma sync_step_register nm cls attrs descr :
  sync_step (_register_action_in_db nm cls attrs descr).
Proof.
  split.
  - intros w w' Hw. rewrite !register_in_db_run. simpl. rewrite <- Hw.
    split; [done|]. destruct (registry w !! nm); simpl; congruence.
  - intros w. rewrite register_in_db_run. simpl.
    destruct (registry w !! nm) eqn:E; simpl; [done|].
    unfold user_records. rewrite map_filter_insert_not'; simpl; [done| |].
    + intros H; by apply H.
    + intros y Hy. congruence.
  - intros w msg. by rewrite register_in_db_run.
  - intros w k Hk. rewrite register_in_db_run. simpl.
    destruct (registry w !! nm) eqn:E; simpl; [done|].
    destruct (decide (nm = k)) as [->|Hne].
    + rewrite lookup_insert_eq. eauto.
    + by rewrite lookup_insert_ne.
Qed.

Lemma sync_step_transaction {A} (body : M A) :
  sync_step body -> sync_step (transaction body).
Proof.
  intros Hb. split.
  - intros w w' Hw. unfold transaction.
    destruct (step_det body Hb (emit EvBegin w) (emit EvBegin w') Hw) as [H1 H2].
    destruct (body (emit EvBegin w)) as [[e|a] w1],
      (body (emit EvBegin w')) as [[e'|a'] w1']; simpl in *; simplify_eq; done.
  - intros w. unfold transaction.
    pose proof (step_users body Hb (emit EvBegin w)) as H.
    by destruct (body (emit EvBegin w)) as [[e|a] w1].
  - intros w msg. unfold transaction.
    pose proof (step_no_duplicate body Hb (emit EvBegin w) msg) as H.
    by destruct (body (emit EvBegin w)) as [[e|a] w1].
  - intros w k Hk. unfold transaction.
    pose proof (step_keeps body Hb (emit EvBegin w) k Hk) as H.
    by destruct (body (emit EvBegin w)) as [[e|a] w1].
Qed.

Lemma registers_bind_l {A B} k (m : M A) (f : A -> M B) :
  registers k m -> (forall a, sync_step (f a)) -> registers k (bind m f).
Proof.
  intros Hm Hf w b. unfold bind. pose proof (Hm w) as H.
  destruct (m w) as [[e|a] w1]; simpl in *; [done|].
  intros _. apply (step_keeps _ (Hf a)). by eapply H.
Qed.

Lemma registers_bind_r {A B} k (m : M A) (f : A -> M B) :
  (forall a, registers k (f a)) -> registers k (bind m f).
Proof.
  intros Hf w b. unfold bind.
  destruct (m w) as [[e|a] w1]; simpl in *; [done|]. apply Hf.
Qed.

Lemma registers_for_each {A} k (xs : list A) (body : A -> M unit) x :
  x ∈ xs -> (forall y, sync_step (body y)) -> registers k (body x) ->
  registers k (for_each xs body).
Proof.
  intros Hx Hb Hk. induction xs as [|y xs IH]; [by apply elem_of_nil in Hx|].
  simpl. apply elem_of_cons in Hx as [->|Hx].
  - apply registers_bind_l; [done|]. intros _. by apply sync_step_for_each.
  - apply registers_bind_r. intros _. by apply IH.
Qed.

Lemma registers_register nm cls attrs descr :
  registers nm (_register_action_in_db nm cls attrs descr).
Proof.
  intros w a _. rewrite register_in_db_run. simpl.
  destruct (registry w !! nm) eqn:E; simpl; [by rewrite E|].
  rewrite lookup_insert_eq. eauto.
Qed.

Lemma registers_transaction {A} k (body : M A) :
  registers k body -> registers k (transaction body).
Proof.
  intros Hb w a. unfold transaction. pose proof (Hb (emit EvBegin w)) as H.
  destruct (body (emit EvBegin w)) as [[e|a'] w1]; simpl in *; [done|].
  intros _. by eapply H.
Qed.

Lemma returns_ret {A} (P : A -> Prop) (a : A) : P a -> returns P (ret a).
Proof. intros Ha w. by exists a. Qed.

Lemma returns_bind {A B} (P : A -> Prop) (Q : B -> Prop) (m : M A)
    (f : A -> M B) :
  returns P m -> (forall a, P a -> returns Q (f a)) -> returns Q (bind m f).
Proof.
  intros Hm Hf w. unfold bind. destruct (Hm w) as (a & Ha & HP).
  destruct (m w) as [[e|a'] w1]; simpl in *; simplify_eq. by apply Hf.
Qed.

Lemma returns_for_each {A} (xs : list A) (body : A -> M unit) :
  (forall x, x ∈ xs -> returns (fun _ => True) (body x)) ->
  returns (fun _ => True) (for_each xs body).
Proof.
  intros Hb. induction xs as [|x xs IH]; simpl; [by apply returns_ret|].
  eapply returns_bind; [apply Hb; by left|].
  intros _ _. apply IH. intros y Hy. apply Hb. by right.
Qed.

Lemma returns_register nm cls attrs descr :
  returns (fun _ => True) (_register_action_in_db nm cls attrs descr).
Proof. intros w. exists tt. by rewrite register_in_db_run. Qed.

Lemma returns_transaction {A} (P : A -> Prop) (body : M A) :
  returns P body -> returns P (transaction body).
Proof.
  intros Hb w. unfold transaction.
  destruct (Hb (emit EvBegin w)) as (a & Ha & HP).
  destruct (body (emit EvBegin w)) as [[e|a'] w1]; simpl in *; simplify_eq.
  eauto.
Qed.

(** ** Registry sync: idempotence, duplicates, failure *)

Section SyncFacts.

Context {plugin : Type}.
Variable get_public_fields : plugin -> string + value.
Variable mgr : list (@extension plugin).
Variable all_generators : list (@generator plugin).

Local Abbreviation sync := (sync_db get_public_fields mgr all_generators).
Local Abbreviation register_all :=
  (register_action_classes get_public_fields mgr all_generators).

Lemma sync_step_mgr_getitem n : sync_step (mgr_getitem mgr n).
Proof.
  unfold mgr_getitem. destruct (List.find _ _).
  - apply sync_step_ret.
  - apply sync_step_raise. discriminate.
Qed.

Lemma sync_step_register_plugin n :
  sync_step (register_plugin get_public_fields mgr n).
Proof.
  unfold register_plugin.
  apply sync_step_bind; [apply sync_step_mgr_getitem | intros e1].
  apply sync_step_bind; [apply sync_step_mgr_getitem | intros e2].
  apply sync_step_bind; [apply sync_step_lift | intros attrs].
  apply sync_step_register.
Qed.

Lemma sync_step_register_generated (g : @generator plugin) cls
    (item : string * plugin) :
  sync_step
    (attrs <- lift (get_public_fields item.2) ;;
     _register_action_in_db (action_namespace g +:+ "." +:+ item.1) cls attrs None).
Proof.
  apply sync_step_bind; [apply sync_step_lift | intros attrs].
  apply sync_step_register.
Qed.

Lemma sync_step_register_dynamic :
  sync_step (_register_dynamic_action_classes get_public_fields all_generators).
Proof.
  unfold _register_dynamic_action_classes.
  apply sync_step_for_each. intros g.
  apply sync_step_bind; [apply sync_step_lift | intros classes].
  apply sync_step_for_each. intros item. apply sync_step_register_generated.
Qed.

Lemma sync_step_register_action_classes : sync_step register_all.
Proof.
  unfold register_action_classes. apply sync_step_transaction.
  apply sync_step_bind; [|intros _; apply sync_step_register_dynamic].
  apply sync_step_for_each. apply sync_step_register_plugin.
Qed.

(** [sync_db] deletes first, on its own, and only then opens the unit of
    work that holds the inserts. *)
Lemma sync_db_run w :
  sync w =
  register_all
    (with_registry (user_records (registry w)) (emit (EvDeleteActions true) w)).
Proof. reflexivity. Qed.

(** X1. When the sync fails, the inserts are undone and the delete is
    not: the registry is left with the user records only. *)
Lemma sync_db_failure_registry w e :
  (sync w).1 = inl e -> registry (sync w).2 = user_records (registry w).
Proof.
  rewrite sync_db_run. unfold register_action_classes, transaction.
  destruct (bind _ _ _) as [[e'|[]] w']; simpl; [done | discriminate].
Qed.

Lemma returns_mgr_getitem e :
  e ∈ mgr ->
  returns (fun e' => e' ∈ mgr /\ ext_name e' = ext_name e)
    (mgr_getitem mgr (ext_name e)).
Proof.
  intros He. unfold mgr_getitem.
  destruct (List.find _ _) as [e'|] eqn:F.
  - apply List.find_some in F as [Hin Hn]. apply returns_ret. split.
    + apply list_elem_of_In. by apply List.in_rev.
    + by apply String.eqb_eq.
  - exfalso. assert (Hn := List.find_none _ _ F e).
    cbv beta in Hn. rewrite String.eqb_refl in Hn. discriminate Hn.
    apply List.in_rev. rewrite List.rev_involutive. by apply list_elem_of_In.
Qed.

Lemma registers_plugin e : e ∈ mgr -> registers (ext_name e) sync.
Proof.
  intros He. unfold sync_db. apply registers_bind_r. intros _.
  unfold register_action_classes. apply registers_transaction.
  apply registers_bind_l; [|intros _; apply sync_step_register_dynamic].
  apply registers_for_each with (x := ext_name e).
  - unfold mgr_names. apply list_elem_of_fmap. eauto.
  - apply sync_step_register_plugin.
  - unfold register_plugin. do 3 (apply registers_bind_r; intros ?).
    apply registers_register.
Qed.

Lemma registers_generated g classes item :
  g ∈ all_generators -> create_action_classes g = inr classes ->
  item ∈ classes ->
  registers (action_namespace g +:+ "." +:+ item.1) sync.
Proof.
  intros Hg Hc Hi. unfold sync_db. apply registers_bind_r. intros _.
  unfold register_action_classes. apply registers_transaction.
  apply registers_bind_r. intros _. unfold _register_dynamic_action_classes.
  apply registers_for_each with (x := g); [done| |].
  - intros g'. apply sync_step_bind; [apply sync_step_lift | intros cs].
    apply sync_step_for_each. intros it. apply sync_step_register_generated.
  - rewrite Hc. simpl lift. rewrite bind_ret_l.
    apply registers_for_each with (x := item); [done| |].
    + intros it. apply sync_step_register_generated.
    + apply registers_bind_r. intros attrs. apply registers_register.
Qed.

Lemma sync_db_never_duplicate w msg :
  (sync w).1 <> inl (DBDuplicateEntry msg).
Proof.
  rewrite sync_db_run.
  apply (step_no_duplicate _ sync_step_register_action_classes).
Qed.

Lemma sync_db_returns :
  discovery_returns get_public_fields mgr all_generators ->
  returns (fun _ => True) sync.
Proof.
  intros [Hp Hg] w. rewrite sync_db_run.
  generalize (with_registry (user_records (registry w))
                (emit (EvDeleteActions true) w)).
  clear w.
  cut (returns (fun _ : unit => True) register_all).
  { intros H w. apply H. }
  unfold register_action_classes. apply returns_transaction.
  eapply returns_bind with (P := fun _ => True).
  - apply returns_for_each. intros n Hn. unfold mgr_names in Hn.
    apply list_elem_of_fmap in Hn as (e & -> & He). unfold register_plugin.
    eapply returns_bind; [by apply returns_mgr_getitem|]. intros e1 _.
    eapply returns_bind; [by apply returns_mgr_getitem|]. intros e2 [He2 _].
    destruct (Hp e2 He2) as [attrs ->]. simpl lift. rewrite bind_ret_l.
    apply returns_register.
  - intros _ _. unfold _register_dynamic_action_classes.
    apply returns_for_each. intros g Hgin.
    destruct (Hg g Hgin) as (classes & -> & Hitems). simpl lift.
    rewrite bind_ret_l. apply returns_for_each. intros item Hitem.
    destruct (Hitems item Hitem) as [attrs ->]. simpl lift. rewrite bind_ret_l.
    apply returns_register.
Qed.

(** C7. [sync_db] is idempotent: from any registry, with the discovered
    plugins and the generators fixed, a second run ends as the first did and
    leaves the registry the first run left, so the system-action sets after
    the two runs are the same. *)
Theorem sync_db_idempotent w :
  let once := sync w in
  let twice := sync once.2 in
  twice.1 = once.1 /\
  registry twice.2 = registry once.2 /\
  system_records (registry twice.2) = system_records (registry once.2).
Proof.
  simpl. rewrite !sync_db_run.
  set (w0 := with_registry (user_records (registry w))
               (emit (EvDeleteActions true) w)).
  set (T := register_all).
  pose proof sync_step_register_action_classes as HT. fold T in HT.
  set (w1 := (T w0).2).
  assert (Hu : user_records (registry w1) = registry w0).
  { unfold w1. rewrite (step_users T HT). simpl. apply user_records_idemp. }
  destruct (step_det T HT
    (with_registry (user_records (registry w1)) (emit (EvDeleteActions true) w1))
    w0) as [H1 H2]; [by simpl|].
  rewrite H1, H2. done.
Qed.

(** C8. A duplicate key met while registering is benign: on a name that is
    already taken [_register_action_in_db] makes one call, the insert, with
    no look-up before it, and returns normally with the registry as it was;
    no run of [sync_db] ends in the duplicate-entry error; when discovery
    itself does not fail the sync returns from every registry; and when it
    returns every discovered plugin name and every generated name has a
    record, whatever duplicates were met on the way. *)
Theorem duplicate_registration_is_benign :
  (forall nm cls attrs descr w,
     is_Some (registry w !! nm) ->
     _register_action_in_db nm cls attrs descr w =
       (inr tt,
        emit (EvCreateAction
                {| name := nm; action_class := cls; attributes := attrs;
                   description := descr; is_system := true |}) w)) /\
  (forall w msg, (sync w).1 <> inl (DBDuplicateEntry msg)) /\
  (discovery_returns get_public_fields mgr all_generators ->
   forall w, (sync w).1 = inr tt) /\
  (forall w, (sync w).1 = inr tt ->
     (forall e, e ∈ mgr -> is_Some (registry (sync w).2 !! ext_name e)) /\
     (forall g classes item,
        g ∈ all_generators -> create_action_classes g = inr classes ->
        item ∈ classes ->
        is_Some (registry (sync w).2
                   !! (action_namespace g +:+ "." +:+ item.1)))).
Proof.
  split; [|split; [|split]].
  - intros nm cls attrs descr w [r Hr]. rewrite register_in_db_run. simpl.
    by rewrite Hr.
  - apply sync_db_never_duplicate.
  - intros Hd w. destruct (sync_db_returns Hd w) as ([] & H & _). exact H.
  - intros w Hw. split.
    + intros e He. by eapply registers_plugin.
    + intros g classes item Hg Hc Hi. by eapply registers_generated.
Qed.

End SyncFacts.

(** ** What the factory may touch *)

Lemma dict_get_set_ne d k v k' :
  k <> k' -> dict_get (dict_set d k v) k' = dict_get d k'.
Proof.
  intros Hne. induction d as [|[k0 v0] d IH]; simpl.
  - destruct (String.eqb_spec k k'); [done|done].
  - destruct (String.eqb_spec k0 k) as [->|Hk]; simpl.
    + destruct (String.eqb_spec k k'); [done|done].
    + destruct (String.eqb_spec k0 k'); [done|apply IH].
Qed.

Lemma dict_get_set_reserved d k v k' :
  reserved_key k = true -> reserved_key k' = false ->
  dict_get (dict_set d k v) k' = dict_get d k'.
Proof.
  intros Hk Hk'. apply dict_get_set_ne. intros ->. congruence.
Qed.

Lemma parameters_frame_refl p : parameters_frame p p.
Proof. by destruct p. Qed.

Lemma parameters_frame_trans p1 p2 p3 :
  parameters_frame p1 p2 -> parameters_frame p2 p3 -> parameters_frame p1 p3.
Proof.
  destruct p1, p2, p3; simpl; try done.
  intros H1 H2 k Hk. by rewrite H2, H1.
Qed.

Lemma read_only_refl w : read_only w w.
Proof.
  repeat split.
  - exists []. by rewrite app_nil_r.
  - by destruct (task w).
  - apply parameters_frame_refl.
Qed.

Lemma read_only_trans w1 w2 w3 :
  read_only w1 w2 -> read_only w2 w3 -> read_only w1 w3.
Proof.
  intros (Hr1 & (e1 & Ht1 & He1) & Hk1 & Hp1) (Hr2 & (e2 & Ht2 & He2) & Hk2 & Hp2).
  repeat split.
  - congruence.
  - exists (e1 ++ e2). rewrite Ht2, Ht1, app_assoc. split; [done|].
    rewrite forallb_app. by rewrite He1, He2.
  - rewrite Hk2 at 1. rewrite Hk1 at 1. done.
  - by eapply parameters_frame_trans.
Qed.

Lemma read_only_emit e w :
  is_registry_write e = false -> read_only w (emit e w).
Proof.
  intros He. repeat split; simpl.
  - exists [e]. simpl. by rewrite He.
  - by destruct (task w).
  - apply parameters_frame_refl.
Qed.

Lemma read_only_set_parameters d k v w :
  parameters (task w) = Some d -> reserved_key k = true ->
  read_only w (with_task (with_parameters (Some (dict_set d k v)) (task w)) w).
Proof.
  intros Hd Hk. repeat split; simpl.
  - exists []. by rewrite app_nil_r.
  - rewrite Hd. intros k' Hk'. by apply dict_get_set_reserved.
Qed.

Lemma framed_ret {A} (a : A) : framed (ret a).
Proof. intros w. apply read_only_refl. Qed.

Lemma framed_raise {A} (e : exn) : framed (@raise A e).
Proof. intros w. apply read_only_refl. Qed.

Lemma framed_bind {A B} (m : M A) (k : A -> M B) :
  framed m -> (forall a, framed (k a)) -> framed (bind m k).
Proof.
  intros Hm Hk w. unfold bind. pose proof (Hm w) as H.
  destruct (m w) as [[e|a] w1]; simpl in *; [done|].
  eapply read_only_trans; [exact H | apply Hk].
Qed.

Lemma framed_try_except {A} (body : M A) (handler : exn -> M A) :
  framed body -> (forall e, framed (handler e)) ->
  framed (try_except body handler).
Proof.
  intros Hb Hh w. unfold try_except. pose proof (Hb w) as H.
  destruct (body w) as [[e|a] w1]; simpl in *; [|done].
  eapply read_only_trans; [exact H | apply Hh].
Qed.

Lemma framed_get_task : framed get_task.
Proof. intros w. apply read_only_refl. Qed.

Lemma framed_call e : is_registry_write e = false -> framed (call e).
Proof. intros He w. by apply read_only_emit. Qed.

Lemma framed_parameters_or_empty : framed parameters_or_empty.
Proof.
  unfold parameters_or_empty. apply framed_bind; [apply framed_get_task|].
  intros t. apply framed_ret.
Qed.

Lemma framed_deref r : framed (deref r).
Proof.
  destruct r; simpl; [|apply framed_ret].
  apply framed_bind; [apply framed_get_task|]. intros t.
  destruct (parameters t); [apply framed_ret | apply framed_raise].
Qed.

Lemma framed_setitem r k v : reserved_key k = true -> framed (setitem r k v).
Proof.
  intros Hk. destruct r; simpl; [|apply framed_ret]. intros w.
  destruct (parameters (task w)) as [d|] eqn:Hd; simpl.
  - by apply read_only_set_parameters.
  - apply read_only_refl.
Qed.

Lemma framed_task_parameters_update v :
  framed (task_parameters_update [("openstack", v)]).
Proof.
  intros w. unfold task_parameters_update.
  destruct (parameters (task w)) as [d|] eqn:Hd; simpl.
  - by apply read_only_set_parameters.
  - apply read_only_refl.
Qed.

Lemma get_action_class_run n w :
  get_action_class n w =
    (inr (match registry w !! n with
          | Some r => Some (construct_action_class (action_class r) (attributes r))
          | None => None
          end),
     emit (EvGetAction n) w).
Proof.
  unfold get_action_class, get_action_db, db_load_action, bind, call. simpl.
  by destruct (registry w !! n).
Qed.

Lemma framed_get_action_class n : framed (get_action_class n).
Proof.
  intros w. rewrite get_action_class_run. by apply read_only_emit.
Qed.

(** ** Factory and composer *)

Section FactoryFacts.

Variable get_full_action_name : value -> string.
Variable get_action_spec : value -> action_spec.
Variable getargspec_init : action_cls -> exn + list string.
Variable getargspec_none : exn + list string.
Variable init_raises : action_cls -> pydict -> option string.
Variable adhoc_raises :
  value -> action_cls -> action_spec -> pydict -> option exn.
Variable str_db_task : db_task -> string.
Variable evaluate_recursively : value -> value -> value.

Local Abbreviation create :=
  (create_action get_full_action_name get_action_spec getargspec_init
     getargspec_none init_raises adhoc_raises str_db_task).
Local Abbreviation create_adhoc :=
  (_create_adhoc_action get_full_action_name get_action_spec getargspec_init
     getargspec_none adhoc_raises).

Lemma framed_has_action_context_param cls :
  framed (_has_action_context_param getargspec_init getargspec_none cls).
Proof.
  destruct cls as [c|]; simpl.
  - destruct (getargspec_init c); [apply framed_raise | apply framed_ret].
  - destruct getargspec_none; [apply framed_raise | apply framed_ret].
Qed.

Lemma framed_construct cls kwargs : framed (construct init_raises cls kwargs).
Proof.
  unfold construct. apply framed_bind; [by apply framed_call|]. intros _.
  destruct (init_raises cls kwargs); [apply framed_raise | apply framed_ret].
Qed.

Lemma framed_construct_adhoc actx cls spec kwargs :
  framed (construct_adhoc adhoc_raises actx cls spec kwargs).
Proof.
  unfold construct_adhoc.
  destruct (adhoc_raises _ _ _ _); [apply framed_raise | apply framed_ret].
Qed.

Lemma framed_create_adhoc_action ctx : framed (create_adhoc ctx).
Proof.
  unfold _create_adhoc_action.
  apply framed_bind; [apply framed_get_task|]. intros t.
  destruct (negb _); [apply framed_ret|].
  apply framed_bind; [apply framed_get_action_class|]. intros base_cls.
  apply framed_bind; [apply framed_has_action_context_param|]. intros has.
  destruct base_cls; [|apply framed_raise].
  apply framed_bind; [apply framed_parameters_or_empty|]. intros r.
  apply framed_bind; [apply framed_deref|]. intros kwargs.
  apply framed_bind; [apply framed_construct_adhoc|]. intros act.
  apply framed_ret.
Qed.

Lemma framed_create_action : framed create.
Proof.
  unfold create_action.
  apply framed_bind; [apply framed_get_task|]. intros t.
  apply framed_bind; [apply framed_get_action_class|]. intros [cls|].
  - apply framed_bind; [apply framed_parameters_or_empty|]. intros r.
    apply framed_bind; [apply framed_has_action_context_param|]. intros has.
    apply framed_bind.
    + destruct has; [by apply framed_setitem | apply framed_ret].
    + intros r'. apply framed_try_except.
      * apply framed_bind; [apply framed_deref|]. intros kwargs.
        apply framed_construct.
      * intros e. apply framed_bind; [apply framed_get_task|]. intros t'.
        apply framed_raise.
  - apply framed_bind.
    + destruct (is_not_none _);
        [apply framed_task_parameters_update | apply framed_ret].
    + intros _. apply framed_bind; [apply framed_create_adhoc_action|].
      intros [a|]; [apply framed_ret | apply framed_raise].
Qed.

(** [_create_adhoc_action], run. *)
Lemma create_adhoc_run ctx w :
  let t := task w in
  let spec := get_action_spec (raw_action_spec t) in
  let w1 := emit (EvGetAction (clazz spec)) w in
  create_adhoc ctx w =
    if truthy (raw_action_spec t) then
      match registry w !! clazz spec with
      | Some r =>
          let cls := construct_action_class (action_class r) (attributes r) in
          match getargspec_init cls with
          | inl e => (inl e, w1)
          | inr args =>
              let action_context :=
                if bool_decide (_ACTION_CTX_PARAM ∈ args)
                then _get_action_context t ctx else VNone in
              let kwargs := default [] (parameters t) in
              (match adhoc_raises action_context cls spec kwargs with
               | Some e => inl e
               | None => inr (Some (AdHocAction action_context cls spec kwargs))
               end, w1)
          end
      | None =>
          (match getargspec_none with
           | inl e => inl e
           | inr _ =>
               inl (ActionException
                      ("Ad-hoc action base class is not registered [workbook_name="
                       +:+ workbook_name t +:+ ", action="
                       +:+ get_full_action_name (task_spec t)
                       +:+ ", base_class=None]"))
           end, w1)
      end
    else (inr None, w).
Proof.
  simpl. unfold _create_adhoc_action, bind, get_task. simpl.
  destruct (truthy (raw_action_spec (task w))); simpl; [|done].
  rewrite get_action_class_run. simpl.
  destruct (registry w !! _) as [r|]; simpl.
  - destruct (getargspec_init _) as [e|args]; simpl; [done|].
    unfold parameters_or_empty, bind, get_task, ret, construct_adhoc. simpl.
    destruct (parameters (task w)) as [[|kv d]|] eqn:Hp; simpl;
      unfold bind, get_task, ret; simpl; rewrite ?Hp; simpl;
      by destruct (adhoc_raises _ _ _ _).
  - by destruct getargspec_none.
Qed.

(** [create_action] on a registered name, run. *)
Lemma create_action_resolved_run w r :
  let t := task w in
  let full := get_full_action_name (task_spec t) in
  let openstack_ctx := default VNone (dict_get (in_context t) "openstack") in
  let params := default [] (parameters t) in
  registry w !! full = Some r ->
  let cls := construct_action_class (action_class r) (attributes r) in
  create w =
    match getargspec_init cls with
    | inl e => (inl e, emit (EvGetAction full) w)
    | inr args =>
        let has := bool_decide (_ACTION_CTX_PARAM ∈ args) in
        let kwargs :=
          if has
          then dict_set params _ACTION_CTX_PARAM
                 (_get_action_context t openstack_ctx)
          else params in
        let w' :=
          resolved_world w full cls has (_get_action_context t openstack_ctx) in
        (match init_raises cls kwargs with
         | None => inr (Instance cls kwargs)
         | Some what =>
             inl (ActionException
                    ("Failed to create action [db_task=" +:+ str_db_task (task w')
                     +:+ "]: " +:+ what))
         end, w')
    end.
Proof.
  simpl. intros Hr. unfold create_action, bind, get_task. simpl.
  rewrite get_action_class_run, Hr. simpl.
  set (cls := construct_action_class (action_class r) (attributes r)).
  unfold resolved_world, parameters_or_empty, bind, get_task, ret, try_except,
    construct, call.
  simpl. destruct (getargspec_init cls) as [e|args]; simpl; [done|].
  destruct (parameters (task w)) as [[|kv d]|] eqn:Hp; simpl;
    destruct (bool_decide (_ACTION_CTX_PARAM ∈ args)); simpl;
    unfold bind, get_task, ret, raise, emit, with_task; simpl; rewrite ?Hp; simpl;
    match goal with |- context [init_raises ?c ?k] =>
      destruct (init_raises c k) end; simpl; rewrite ?Hp, <- ?app_assoc; simpl;
    try done.
Qed.

(** [create_action] on a name that is not registered, run. *)
Lemma create_action_unresolved_run w :
  let t := task w in
  let full := get_full_action_name (task_spec t) in
  let openstack_ctx := default VNone (dict_get (in_context t) "openstack") in
  registry w !! full = None ->
  create w =
    if is_not_none openstack_ctx && negb (bool_decide (is_Some (parameters t)))
    then (inl (AttributeError "'NoneType' object has no attribute 'update'"),
          emit (EvGetAction full) w)
    else
      match create_adhoc openstack_ctx (unresolved_world w full openstack_ctx) with
      | (inr (Some a), w') => (inr a, w')
      | (inr None, w') =>
          (inl (ActionException
                  ("Unknown action [workbook_name=" +:+ workbook_name t
                   +:+ ", action=" +:+ full +:+ "]")), w')
      | (inl e, w') => (inl e, w')
      end.
Proof.
  simpl. intros Hr. unfold create_action, bind, get_task. simpl.
  rewrite get_action_class_run, Hr. simpl. unfold unresolved_world.
  destruct (is_not_none _) eqn:Hctx; simpl.
  - unfold task_parameters_update. simpl.
    destruct (parameters (task w)) as [d|] eqn:Hp; simpl; [|done].
    unfold emit, with_task. simpl.
    by destruct (_create_adhoc_action _ _ _ _ _ _ _) as [[e|[a|]] w'].
  - unfold emit. simpl.
    by destruct (_create_adhoc_action _ _ _ _ _ _ _) as [[e|[a|]] w'].
Qed.

Lemma unresolved_world_task w full ctx :
  raw_action_spec (task (unresolved_world w full ctx)) = raw_action_spec (task w) /\
  task_spec (task (unresolved_world w full ctx)) = task_spec (task w) /\
  workbook_name (task (unresolved_world w full ctx)) = workbook_name (task w).
Proof. unfold unresolved_world. simpl. by destruct (is_not_none ctx). Qed.

Lemma create_adhoc_keeps_task ctx w : task (create_adhoc ctx w).2 = task w.
Proof.
  rewrite create_adhoc_run.
  destruct (truthy _); [|done].
  destruct (registry w !! _) as [r|]; simpl; [|done].
  by destruct (getargspec_init _).
Qed.

Lemma create_action_keeps_task w :
  let t := task w in
  let full := get_full_action_name (task_spec t) in
  is_not_none (default VNone (dict_get (in_context t) "openstack")) = false ->
  (forall r args, registry w !! full = Some r ->
     getargspec_init (construct_action_class (action_class r) (attributes r))
       = inr args ->
     _ACTION_CTX_PARAM ∉ args) ->
  task (create w).2 = task w.
Proof.
  simpl. intros Hctx Hcls.
  destruct (registry w !! _) as [r|] eqn:Hr.
  - rewrite (create_action_resolved_run w r Hr).
    destruct (getargspec_init _) as [e|args] eqn:G; [done|].
    rewrite bool_decide_eq_false_2 by by eapply Hcls.
    unfold resolved_world. by destruct (init_raises _ _).
  - rewrite (create_action_unresolved_run w Hr), Hctx. simpl.
    pose proof (create_adhoc_keeps_task
                  (default VNone (dict_get (in_context (task w)) "openstack"))
                  (unresolved_world w
                     (get_full_action_name (task_spec (task w)))
                     (default VNone (dict_get (in_context (task w)) "openstack"))))
      as K.
    destruct (_create_adhoc_action _ _ _ _ _ _ _) as [[e|[a|]] w'];
      simpl in *; rewrite K; unfold unresolved_world; by rewrite Hctx.
Qed.

(** X9. An unknown action with no ad-hoc specification is reported as
    such, in an [ActionException] naming the workbook and the action, as
    long as the platform context, when there is one, finds a parameters
    mapping to be stored in. *)
Lemma create_action_unknown w :
  let t := task w in
  let full := get_full_action_name (task_spec t) in
  registry w !! full = None ->
  truthy (raw_action_spec t) = false ->
  (is_not_none (default VNone (dict_get (in_context t) "openstack")) = true ->
   is_Some (parameters t)) ->
  (create w).1 =
    inl (ActionException ("Unknown action [workbook_name=" +:+ workbook_name t
                          +:+ ", action=" +:+ full +:+ "]")).
Proof.
  simpl. intros Hr Hraw Hp. unfold create_action, bind, get_task. simpl.
  rewrite get_action_class_run, Hr. simpl.
  destruct (is_not_none _) eqn:Hctx; simpl.
  - destruct Hp as [d Hd]; [done|]. unfold task_parameters_update. simpl.
    rewrite Hd. simpl. unfold _create_adhoc_action, bind, get_task. simpl.
    by rewrite Hraw.
  - unfold _create_adhoc_action, bind, get_task. simpl. by rewrite Hraw.
Qed.

(** X10. With a platform context and no parameters mapping, the factory
    stops on an unregistered name at [db_task['parameters'].update], with
    [AttributeError], after the one look-up of the name and before any
    ad-hoc look-up. *)
Lemma create_action_unknown_without_parameters w :
  let t := task w in
  let full := get_full_action_name (task_spec t) in
  registry w !! full = None ->
  is_not_none (default VNone (dict_get (in_context t) "openstack")) = true ->
  parameters t = None ->
  create w =
    (inl (AttributeError "'NoneType' object has no attribute 'update'"),
     emit (EvGetAction full) w).
Proof.
  simpl. intros Hr Hctx Hp. unfold create_action, bind, get_task. simpl.
  rewrite get_action_class_run, Hr. simpl. rewrite Hctx.
  unfold task_parameters_update. simpl. by rewrite Hp.
Qed.

(** X11. [resolve_adhoc_action_name] tests the base class before anything
    else uses it: an unregistered base class is reported in an
    [ActionException] naming the workbook and the action. *)
Lemma resolve_adhoc_action_name_unregistered wb action_name spec w :
  get_action wb action_name = Some spec ->
  registry w !! clazz spec = None ->
  (resolve_adhoc_action_name wb action_name w).1 =
    inl (ActionException
           ("Ad-hoc action base class is not registered [workbook="
            +:+ workbook_str wb +:+ ", action=" +:+ action_name
            +:+ ", base_class=None]")).
Proof.
  intros Hs Hr. unfold resolve_adhoc_action_name. rewrite Hs. unfold bind.
  by rewrite get_action_class_run, Hr.
Qed.

(** X13. [_create_adhoc_action] inspects the base class first and tests
    it afterwards: with the base class missing, what it raises is up to
    [inspect.getargspec], its exception when it raises one and the
    base-class [ActionException] when it does not. *)
Lemma create_adhoc_unregistered_base ctx w :
  let t := task w in
  truthy (raw_action_spec t) = true ->
  registry w !! clazz (get_action_spec (raw_action_spec t)) = None ->
  (create_adhoc ctx w).1 =
    match getargspec_none with
    | inl e => inl e
    | inr _ =>
        inl (ActionException
               ("Ad-hoc action base class is not registered [workbook_name="
                +:+ workbook_name t +:+ ", action="
                +:+ get_full_action_name (task_spec t) +:+ ", base_class=None]"))
    end.
Proof.
  simpl. intros Hraw Hr. unfold _create_adhoc_action, bind, get_task. simpl.
  rewrite Hraw. simpl. rewrite get_action_class_run, Hr. simpl.
  by destruct getargspec_none.
Qed.

(** C4, as amended. [create_action] writes nothing to the registry (the
    registry is as before and the calls it adds to the trace are look-ups
    and constructor calls), and leaves every key of the task but
    [parameters] as it was. The parameters mapping is updated in place, but
    only under the keys ['openstack'] and ['action_context']: an absent
    mapping stays absent and every other key keeps its value. With no
    platform context in [in_context] and a resolved class that does not take
    the context parameter (whatever arguments [inspect.getargspec] returns
    for it, ['action_context'] is not among them), the task is left as it
    was altogether. *)
Theorem create_action_frame w :
  let t := task w in
  let full := get_full_action_name (task_spec t) in
  let w' := (create w).2 in
  registry w' = registry w /\
  (exists evs, trace w' = trace w ++ evs /\
     forallb (fun e => negb (is_registry_write e)) evs = true) /\
  task w' = with_parameters (parameters (task w')) t /\
  parameters_frame (parameters t) (parameters (task w')) /\
  (is_not_none (default VNone (dict_get (in_context t) "openstack")) = false ->
   (forall r args, registry w !! full = Some r ->
      getargspec_init (construct_action_class (action_class r) (attributes r))
        = inr args ->
      _ACTION_CTX_PARAM ∉ args) ->
   task w' = t).
Proof.
  simpl. destruct (framed_create_action w) as (H1 & H2 & H3 & H4).
  repeat split; try done. apply create_action_keeps_task.
Qed.

(** C5. [convert_adhoc_action_params] on an ad-hoc action specification:
    when [base_parameters] is empty (the code's test is [not base_params])
    the result is the empty mapping whatever the call parameters are, and
    nothing is evaluated; otherwise the result is
    [evaluate_recursively(base_params, params)], the call parameters being
    the evaluation context. *)
Theorem convert_params_spec wb action_name spec params w :
  get_action wb action_name = Some spec ->
  (truthy (base_parameters spec) = false ->
     convert_adhoc_action_params evaluate_recursively wb action_name params w
       = (inr (VDict []), w)) /\
  (truthy (base_parameters spec) = true ->
     convert_adhoc_action_params evaluate_recursively wb action_name params w
       = (inr (evaluate_recursively (base_parameters spec) params),
          emit (EvEvaluate (base_parameters spec) params) w)).
Proof.
  intros Hs. unfold convert_adhoc_action_params. rewrite Hs.
  split; intros ->; reflexivity.
Qed.

(** C6, as amended. [convert_adhoc_action_result] on an ad-hoc action
    specification: with an output transform that is absent or empty (the
    code's test is [not transformer]) the base result comes back unchanged;
    otherwise, for a transform that is not empty, the result is
    [evaluate_recursively(transformer, result)], the base result being the
    evaluation context. *)
Theorem convert_result_spec wb action_name spec result w :
  get_action wb action_name = Some spec ->
  (truthy (output spec) = false ->
     convert_adhoc_action_result evaluate_recursively wb action_name result w
       = (inr result, w)) /\
  (truthy (output spec) = true ->
     convert_adhoc_action_result evaluate_recursively wb action_name result w
       = (inr (evaluate_recursively (output spec) result),
          emit (EvEvaluate (output spec) result) w)).
Proof.
  intros Hs. unfold convert_adhoc_action_result. rewrite Hs.
  split; intros ->; reflexivity.
Qed.

(** C10. An output transform that is present but empty (falsy: the empty
    mapping, the empty string, ...) takes the identity branch as an absent
    one does: the base result comes back unchanged and the world, its trace
    of evaluator calls included, is as before, for every evaluator. *)
Theorem convert_result_empty_transform wb action_name spec result w :
  get_action wb action_name = Some spec ->
  output spec <> VNone ->
  truthy (output spec) = false ->
  convert_adhoc_action_result evaluate_recursively wb action_name result w
    = (inr result, w) /\
  trace (convert_adhoc_action_result evaluate_recursively wb action_name
           result w).2 = trace w.
Proof.
  intros Hs _ Hf. unfold convert_adhoc_action_result. rewrite Hs, Hf. done.
Qed.

(** C9. The execution context goes exactly to the classes whose constructor
    names [action_context]. For a registered class on which
    [inspect.getargspec] returns the constructor's arguments,
    [create_action] calls the constructor once, with the task's parameters
    (none if absent or empty) and, when and only when ['action_context'] is
    among those arguments, the context bound to that name; the instance, or
    the wrapped constructor failure, is built from those arguments. When
    [inspect.getargspec] raises on the class, that exception leaves
    [create_action] and no constructor is called. For an ad-hoc action the
    context handed to [AdHocAction] is [None] unless the base class names
    [action_context]; the call returns the ad-hoc action or raises what
    [AdHocAction] raises on those arguments. *)
Theorem context_injection_gated w :
  let t := task w in
  let full := get_full_action_name (task_spec t) in
  let openstack_ctx := default VNone (dict_get (in_context t) "openstack") in
  let params := default [] (parameters t) in
  (forall r args, registry w !! full = Some r ->
     let cls := construct_action_class (action_class r) (attributes r) in
     getargspec_init cls = inr args ->
     let kwargs :=
       if bool_decide (_ACTION_CTX_PARAM ∈ args)
       then dict_set params _ACTION_CTX_PARAM (_get_action_context t openstack_ctx)
       else params in
     trace (create w).2 = trace w ++ [EvGetAction full; EvConstruct cls kwargs] /\
     (create w).1 =
       match init_raises cls kwargs with
       | None => inr (Instance cls kwargs)
       | Some what =>
           inl (ActionException
                  ("Failed to create action [db_task="
                   +:+ str_db_task (task (create w).2) +:+ "]: " +:+ what))
       end) /\
  (forall r e, registry w !! full = Some r ->
     getargspec_init (construct_action_class (action_class r) (attributes r))
       = inl e ->
     create w = (inl e, emit (EvGetAction full) w)) /\
  (forall ctx r args,
     truthy (raw_action_spec t) = true ->
     registry w !! clazz (get_action_spec (raw_action_spec t)) = Some r ->
     let cls := construct_action_class (action_class r) (attributes r) in
     getargspec_init cls = inr args ->
     let action_context :=
       if bool_decide (_ACTION_CTX_PARAM ∈ args)
       then _get_action_context t ctx else VNone in
     (create_adhoc ctx w).1 =
       match adhoc_raises action_context cls
               (get_action_spec (raw_action_spec t)) params with
       | Some e => inl e
       | None =>
           inr (Some (AdHocAction action_context cls
                        (get_action_spec (raw_action_spec t)) params))
       end).
Proof.
  simpl. split; [|split].
  - intros r args Hr G. rewrite (create_action_resolved_run w r Hr), G.
    unfold resolved_world. simpl. split; [done|].
    by destruct (init_raises _ _).
  - intros r e Hr G. by rewrite (create_action_resolved_run w r Hr), G.
  - intros ctx r args Hraw Hr G. rewrite create_adhoc_run, Hraw, Hr. simpl.
    rewrite G. simpl. by destruct (adhoc_raises _ _ _ _).
Qed.

(** X16. Registered names take precedence over ad-hoc definitions: an
    [Instance] comes back only for a registered name, of the class the
    record names; an [AdHocAction] only when the name is not registered,
    the task carries an ad-hoc specification and the base class of that
    specification is registered. *)
Theorem create_action_returns w a :
  let t := task w in
  let full := get_full_action_name (task_spec t) in
  (create w).1 = inr a ->
  match a with
  | Instance cls _ =>
      exists r, registry w !! full = Some r /\
        cls = construct_action_class (action_class r) (attributes r)
  | AdHocAction _ cls spec _ =>
      registry w !! full = None /\
      truthy (raw_action_spec t) = true /\
      spec = get_action_spec (raw_action_spec t) /\
      exists r, registry w !! clazz spec = Some r /\
        cls = construct_action_class (action_class r) (attributes r)
  end.
Proof.
  simpl. destruct (registry w !! _) as [r|] eqn:Hr.
  - rewrite (create_action_resolved_run w r Hr).
    destruct (getargspec_init _); [done|]. simpl.
    destruct (init_raises _ _); [done|]. intros [= <-]. eauto.
  - rewrite (create_action_unresolved_run w Hr).
    destruct (_ && _); [done|].
    rewrite create_adhoc_run.
    destruct (unresolved_world_task w
                (get_full_action_name (task_spec (task w)))
                (default VNone (dict_get (in_context (task w)) "openstack")))
      as (-> & _ & _).
    destruct (truthy (raw_action_spec (task w))) eqn:Hraw; [|done].
    change (registry (unresolved_world w _ _)) with (registry w).
    destruct (registry w !! clazz _) as [r|] eqn:Hb; simpl.
    + destruct (getargspec_init _); [done|]. simpl.
      destruct (adhoc_raises _ _ _ _); [done|]. intros [= <-]. eauto 10.
    + by destruct getargspec_none.
Qed.



(** X18. The task's parameters after [create_action], in every case. For
    a registered class that takes the context, a non-empty mapping gains
    ['action_context'] in place, while an empty or absent one is left as it
    is (the context then goes into a dictionary of its own); when
    [inspect.getargspec] raises on the class they are left as they are. For
    an unregistered name a mapping gains ['openstack'] when [in_context]
    has a platform context that is not [None]. Nothing else changes them. *)
Theorem create_action_final_parameters w :
  let t := task w in
  let full := get_full_action_name (task_spec t) in
  let openstack_ctx := default VNone (dict_get (in_context t) "openstack") in
  parameters (task (create w).2) =
    match registry w !! full with
    | Some r =>
        let cls := construct_action_class (action_class r) (attributes r) in
        match parameters t, getargspec_init cls with
        | Some (kv :: d), inr args =>
            if bool_decide (_ACTION_CTX_PARAM ∈ args)
            then Some (dict_set (kv :: d) _ACTION_CTX_PARAM
                         (_get_action_context t openstack_ctx))
            else Some (kv :: d)
        | other, _ => other
        end
    | None =>
        match parameters t with
        | Some d =>
            if is_not_none openstack_ctx
            then Some (dict_set d "openstack" openstack_ctx) else Some d
        | None => None
        end
    end.
Proof.
  simpl. destruct (registry w !! _) as [r|] eqn:Hr.
  - rewrite (create_action_resolved_run w r Hr).
    destruct (getargspec_init _) as [e|args]; simpl.
    + by destruct (parameters (task w)) as [[|kv d]|].
    + unfold resolved_world. simpl.
      destruct (parameters (task w)) as [[|kv d]|] eqn:Hp;
        destruct (bool_decide _); simpl; by rewrite ?Hp.
  - rewrite (create_action_unresolved_run w Hr).
    set (ctx := default VNone (dict_get (in_context (task w)) "openstack")).
    set (uw := unresolved_world w _ ctx).
    pose proof (create_adhoc_keeps_task ctx uw) as K.
    assert (Hu : parameters (task uw) =
                 match parameters (task w) with
                 | Some d =>
                     if is_not_none ctx then Some (dict_set d "openstack" ctx)
                     else Some d
                 | None => None
                 end).
    { unfold uw, unresolved_world. simpl.
      by destruct (is_not_none ctx), (parameters (task w)). }
    destruct (is_not_none ctx && _) eqn:Hb; simpl.
    + apply andb_true_iff in Hb as [Hc Hp]. apply negb_true_iff in Hp.
      apply bool_decide_eq_false in Hp.
      destruct (parameters (task w)); [|done]. exfalso. apply Hp. eauto.
    + destruct (_create_adhoc_action _ _ _ _ _ ctx uw) as [[e|[a|]] w'];
        simpl in *; by rewrite K, Hu.
Qed.


(** X14. [_create_adhoc_action] returns [None] exactly when the task
    carries no ad-hoc specification ([not raw_action_spec]), and then
    without a registry look-up or any other effect. *)
Theorem create_adhoc_none ctx w :
  ((create_adhoc ctx w).1 = inr None <-> truthy (raw_action_spec (task w)) = false) /\
  (truthy (raw_action_spec (task w)) = false -> create_adhoc ctx w = (inr None, w)).
Proof.
  rewrite create_adhoc_run.
  destruct (truthy (raw_action_spec (task w))); simpl; [|done].
  split; [|done]. split; [|done].
  destruct (registry w !! _); simpl; [|by destruct getargspec_none].
  destruct (getargspec_init _); simpl; [done|].
  by destruct (adhoc_raises _ _ _ _).
Qed.

(** X12. [resolve_adhoc_action_name] returns a name exactly when the
    workbook defines the ad-hoc action and the registry holds its base
    class, and the name is then the base class of the specification; every
    failure is an [ActionException]; the registry and the task are left as
    they were. *)
Theorem resolve_adhoc_action_name_returns wb action_name w :
  (forall s, (resolve_adhoc_action_name wb action_name w).1 = inr s <->
     exists spec, get_action wb action_name = Some spec /\
       is_Some (registry w !! clazz spec) /\ s = clazz spec) /\
  (forall e, (resolve_adhoc_action_name wb action_name w).1 = inl e ->
     exists msg, e = ActionException msg) /\
  registry (resolve_adhoc_action_name wb action_name w).2 = registry w /\
  task (resolve_adhoc_action_name wb action_name w).2 = task w.
Proof.
  unfold resolve_adhoc_action_name.
  destruct (get_action wb action_name) as [spec|] eqn:Hs; simpl.
  - unfold bind. rewrite get_action_class_run. simpl.
    destruct (registry w !! clazz spec) as [r|] eqn:Hr; simpl.
    + repeat split; try done.
      * intros [= <-]. exists spec. eauto.
      * intros (spec' & [= <-] & _ & ->). done.
    + repeat split; try done.
      * intros (spec' & [= <-] & [x Hx] & _). congruence.
      * intros ? [= <-]. eauto.
  - repeat split; try done.
    + intros (spec' & ? & _). done.
    + intros ? [= <-]. eauto.
Qed.

(** X19. On an action name the workbook does not define, both converters
    fail on the attribute access, with [AttributeError] and not with
    [ActionException], before anything is evaluated. *)
Theorem convert_adhoc_action_missing_spec wb action_name v w :
  get_action wb action_name = None ->
  convert_adhoc_action_params evaluate_recursively wb action_name v w
    = (inl (AttributeError "'NoneType' object has no attribute 'base_parameters'"), w) /\
  convert_adhoc_action_result evaluate_recursively wb action_name v w
    = (inl (AttributeError "'NoneType' object has no attribute 'output'"), w).
Proof.
  intros H. unfold convert_adhoc_action_params, convert_adhoc_action_result.
  by rewrite H.
Qed.

End FactoryFacts.

(** ** Registry sync: what it writes, raises and calls *)

Lemma bind_raise_l {A B} (e : exn) (f : A -> M B) : bind (raise e) f = raise e.
Proof. reflexivity. Qed.

Lemma sync_effect_weaken (S S' : string -> Prop) (E E' : exn -> Prop) {A}
    (m : M A) :
  (forall k, S k -> S' k) -> (forall e, E e -> E' e) ->
  sync_effect S E m -> sync_effect S' E' m.
Proof.
  intros HS HE [H1 H2 H3 H4 H5]. split; try done.
  - intros w k. destruct (H2 w k); auto.
  - intros w e He. apply HE. by eapply H3.
Qed.

Lemma sync_effect_ret S E {A} (a : A) : sync_effect S E (ret a).
Proof.
  split; simpl; intros; auto; try done.
  exists []. by rewrite app_nil_r.
Qed.

Lemma sync_effect_raise S (E : exn -> Prop) {A} e :
  E e -> sync_effect S E (@raise A e).
Proof.
  intros He. split; simpl; intros; auto.
  - by simplify_eq.
  - exists []. by rewrite app_nil_r.
Qed.

Lemma sync_effect_bind S E {A B} (m : M A) (k : A -> M B) :
  sync_effect S E m -> (forall a, sync_effect S E (k a)) ->
  sync_effect S E (bind m k).
Proof.
  intros Hm Hk. split.
  - intros w k0 r Hr. unfold bind. pose proof (eff_keeps _ _ _ Hm w k0 r Hr) as H.
    destruct (m w) as [[e|a] w1]; simpl in *; [done|].
    by apply (eff_keeps _ _ _ (Hk a)).
  - intros w k0. unfold bind. pose proof (eff_touches _ _ _ Hm w k0) as H.
    destruct (m w) as [[e|a] w1]; simpl in *; [done|].
    destruct H as [H|H]; [|by right].
    destruct (eff_touches _ _ _ (Hk a) w1 k0) as [H'|H']; [|by right].
    left. congruence.
  - intros w e. unfold bind. pose proof (eff_raises _ _ _ Hm w) as H.
    destruct (m w) as [[e'|a] w1]; simpl in *.
    + intros [= <-]. by apply H.
    + apply (eff_raises _ _ _ (Hk a)).
  - intros w. unfold bind. destruct (eff_trace _ _ _ Hm w) as (evs & Ht & Hf).
    destruct (m w) as [[e'|a] w1]; simpl in *; [eauto|].
    destruct (eff_trace _ _ _ (Hk a) w1) as (evs' & Ht' & Hf').
    exists (evs ++ evs'). rewrite Ht', Ht, app_assoc. split; [done|].
    by apply Forall_app.
  - intros w. unfold bind. pose proof (eff_task _ _ _ Hm w) as H.
    destruct (m w) as [[e'|a] w1]; simpl in *; [done|].
    by rewrite (eff_task _ _ _ (Hk a)).
Qed.

Lemma sync_effect_for_each S E {A} (xs : list A) (body : A -> M unit) :
  (forall x, x ∈ xs -> sync_effect S E (body x)) ->
  sync_effect S E (for_each xs body).
Proof.
  intros Hb. induction xs as [|x xs IH]; simpl; [apply sync_effect_ret|].
  apply sync_effect_bind; [apply Hb; by left|].
  intros _. apply IH. intros y Hy. apply Hb. by right.
Qed.

Lemma sync_effect_register (S : string -> Prop) E nm cls attrs descr :
  S nm -> sync_effect S E (_register_action_in_db nm cls attrs descr).
Proof.
  intros HS. split.
  - intros w k r Hr. rewrite register_in_db_run. simpl.
    destruct (registry w !! nm) eqn:En; simpl; [done|].
    rewrite lookup_insert_ne; [done|]. intros ->. congruence.
  - intros w k. rewrite register_in_db_run. simpl.
    destruct (registry w !! nm) eqn:En; simpl; [by left|].
    destruct (decide (nm = k)) as [<-|Hne]; [by right|].
    left. by rewrite lookup_insert_ne.
  - intros w e. by rewrite register_in_db_run.
  - intros w. rewrite register_in_db_run. simpl.
    eexists [_]. split; [by destruct (registry w !! nm)|].
    by apply Forall_singleton.
  - intros w. rewrite register_in_db_run. simpl.
    by destruct (registry w !! nm).
Qed.

Section SyncEffects.

Context {plugin : Type}.
Variable get_public_fields : plugin -> string + value.
Variable mgr : list (@extension plugin).
Variable all_generators : list (@generator plugin).

Local Abbreviation sync := (sync_db get_public_fields mgr all_generators).
Local Abbreviation register_body :=
  (for_each (mgr_names mgr) (register_plugin get_public_fields mgr) ;;;
   _register_dynamic_action_classes get_public_fields all_generators).
Local Abbreviation discovered := (discovered_name mgr all_generators).
Local Abbreviation raised :=
  (discovery_raised get_public_fields mgr all_generators).

Lemma mgr_getitem_found n e' :
  List.find (fun e => String.eqb (ext_name e) n) (rev mgr) = Some e' ->
  mgr_getitem mgr n = ret e' /\ e' ∈ mgr /\ ext_name e' = n.
Proof.
  intros F. unfold mgr_getitem. rewrite F. split; [done|].
  apply List.find_some in F as [Hin Hn]. split.
  - apply list_elem_of_In. by apply List.in_rev.
  - by apply String.eqb_eq.
Qed.

Lemma mgr_getitem_in e :
  e ∈ mgr ->
  exists e', List.find (fun x => String.eqb (ext_name x) (ext_name e)) (rev mgr)
             = Some e'.
Proof.
  intros He. destruct (List.find _ _) as [e'|] eqn:F; [eauto|].
  exfalso. assert (Hn := List.find_none _ _ F e).
  cbv beta in Hn. rewrite String.eqb_refl in Hn. discriminate Hn.
  apply List.in_rev. rewrite List.rev_involutive. by apply list_elem_of_In.
Qed.

Lemma register_plugin_run n e' w :
  List.find (fun e => String.eqb (ext_name e) n) (rev mgr) = Some e' ->
  register_plugin get_public_fields mgr n w =
    match get_public_fields (ext_plugin e') with
    | inl what => (inl (Raised what), w)
    | inr attrs =>
        _register_action_in_db n
          (str_replace ":"%char "."%char (entry_point_target e')) attrs None w
    end.
Proof.
  intros F. destruct (mgr_getitem_found n e' F) as (Hg & _ & _).
  unfold register_plugin. rewrite Hg, !bind_ret_l.
  by destruct (get_public_fields (ext_plugin e')).
Qed.

Lemma sync_effect_register_plugin (S : string -> Prop) (E : exn -> Prop) n :
  S n ->
  (forall x what, x ∈ mgr -> get_public_fields (ext_plugin x) = inl what ->
     E (Raised what)) ->
  (List.find (fun e => String.eqb (ext_name e) n) (rev mgr) = None ->
   E (KeyError n)) ->
  sync_effect S E (register_plugin get_public_fields mgr n).
Proof.
  intros HS HE HK.
  destruct (List.find (fun e => String.eqb (ext_name e) n) (rev mgr))
    as [e'|] eqn:F.
  - destruct (mgr_getitem_found n e' F) as (Hg & Hin & _).
    unfold register_plugin. rewrite Hg, !bind_ret_l.
    destruct (get_public_fields (ext_plugin e')) as [what|attrs] eqn:G; simpl.
    + rewrite bind_raise_l. apply sync_effect_raise. by eapply HE.
    + rewrite bind_ret_l. by apply sync_effect_register.
  - unfold register_plugin, mgr_getitem. rewrite F, bind_raise_l.
    apply sync_effect_raise. by apply HK.
Qed.

Lemma sync_effect_register_plugin_in e :
  e ∈ mgr ->
  sync_effect discovered raised
    (register_plugin get_public_fields mgr (ext_name e)).
Proof.
  intros He. apply sync_effect_register_plugin.
  - left. unfold mgr_names. apply list_elem_of_fmap. eauto.
  - intros x what Hx Hw. exists what. split; [done|]. left. eauto.
  - intros F. destruct (mgr_getitem_in e He) as [e' F']. congruence.
Qed.

Lemma sync_effect_register_plugin_any n :
  sync_effect (eq n) (fun _ => True)
    (register_plugin get_public_fields mgr n).
Proof. by apply sync_effect_register_plugin. Qed.

Lemma sync_effect_register_dynamic (S : string -> Prop) (E : exn -> Prop) :
  (forall k, discovered k -> S k) -> (forall e, raised e -> E e) ->
  sync_effect S E
    (_register_dynamic_action_classes get_public_fields all_generators).
Proof.
  intros HS HE. apply sync_effect_weaken with (S := discovered) (E := raised);
    [done|done|].
  unfold _register_dynamic_action_classes.
  apply sync_effect_for_each. intros g Hg.
  destruct (create_action_classes g) as [what|classes] eqn:C; simpl.
  - rewrite bind_raise_l. apply sync_effect_raise.
    exists what. split; [done|]. right. eauto.
  - rewrite bind_ret_l. apply sync_effect_for_each. intros item Hi.
    destruct (get_public_fields item.2) as [what|attrs] eqn:G; simpl.
    + rewrite bind_raise_l. apply sync_effect_raise.
      exists what. split; [done|]. right. exists g. split; [done|]. right.
      eauto.
    + rewrite bind_ret_l. apply sync_effect_register. right.
      exists g, classes, item. done.
Qed.

Lemma sync_effect_register_body : sync_effect discovered raised register_body.
Proof.
  apply sync_effect_bind.
  - apply sync_effect_for_each. intros n Hn. unfold mgr_names in Hn.
    apply list_elem_of_fmap in Hn as (e & -> & He).
    by apply sync_effect_register_plugin_in.
  - intros _. by apply sync_effect_register_dynamic.
Qed.

(** The two ways a sync ends, with the world it leaves. *)
Lemma sync_db_cases w :
  let w0 := emit EvBegin (with_registry (user_records (registry w))
                            (emit (EvDeleteActions true) w)) in
  sync w =
    match register_body w0 with
    | (inr a, w') => (inr a, emit EvCommit w')
    | (inl e, w') =>
        (inl e, emit EvRollback (with_registry (user_records (registry w)) w'))
    end.
Proof. reflexivity. Qed.


Lemma user_records_lookup_system r k x :
  user_records r !! k = Some x -> is_system x = true -> False.
Proof.
  unfold user_records. intros H Hs.
  apply map_lookup_filter_Some in H as [_ H]. simpl in H. done.
Qed.

(** X4. No stale system action survives a sync: whether [sync_db] returns
    or raises, every record with [is_system] true that the registry holds
    afterwards is named after a discovered plugin or after a class one of
    the generators produced. *)
Theorem sync_db_system_records_discovered w k r :
  registry (sync_db get_public_fields mgr all_generators w).2 !! k = Some r ->
  is_system r = true ->
  discovered_name mgr all_generators k.
Proof.
  rewrite sync_db_cases. simpl.
  set (w0 := emit EvBegin _).
  pose proof (eff_touches _ _ _ sync_effect_register_body w0 k) as Ht.
  destruct (register_body w0) as [[e|a] w']; simpl in *.
  - intros H Hs. exfalso. by eapply user_records_lookup_system.
  - intros H Hs. destruct Ht as [Ht|Ht]; [|done].
    exfalso. rewrite Ht in H. by eapply user_records_lookup_system.
Qed.

(** X5. [sync_db] raises nothing of its own: an exception that leaves it
    is one that [get_public_fields] raised on a plugin or on a generated
    class, or that a generator's [create_action_classes] raised. In
    particular [mgr[name]] never fails on a name of [mgr.names()]. *)
Theorem sync_db_raises_only_discovery w e :
  (sync_db get_public_fields mgr all_generators w).1 = inl e ->
  discovery_raised get_public_fields mgr all_generators e.
Proof.
  rewrite sync_db_cases. simpl.
  set (w0 := emit EvBegin _).
  pose proof (eff_raises _ _ _ sync_effect_register_body w0) as Hr.
  destruct (register_body w0) as [[e'|a] w']; simpl in *; [|done].
  intros [= <-]. by apply Hr.
Qed.

(** X6. The calls of [sync_db], in order: the delete of the system
    records, then the start of the unit of work, then inserts of records
    with [is_system] true and nothing else (no look-up, no second delete),
    then the commit when the sync returns and the rollback when it raises.
    The task is not touched. *)
Theorem sync_db_calls w :
  exists inserts,
    trace (sync w).2 =
      trace w ++ [EvDeleteActions true; EvBegin] ++ inserts
        ++ [match (sync w).1 with inr _ => EvCommit | inl _ => EvRollback end] /\
    Forall system_insert inserts /\
    task (sync w).2 = task w.
Proof.
  rewrite sync_db_cases. simpl.
  set (w0 := emit EvBegin _).
  destruct (eff_trace _ _ _ sync_effect_register_body w0) as (evs & Ht & Hf).
  pose proof (eff_task _ _ _ sync_effect_register_body w0) as Hk.
  exists evs. destruct (register_body w0) as [[e'|a] w']; simpl in *;
    rewrite Ht, <- !app_assoc; done.
Qed.

(** X2. [sync_db] never adds, drops or changes a record with [is_system]
    false, whether it returns or raises. *)
Theorem sync_db_keeps_user_records w :
  user_records (registry (sync w).2) = user_records (registry w).
Proof.
  rewrite sync_db_run.
  rewrite (step_users _ (sync_step_register_action_classes get_public_fields
                           mgr all_generators)).
  simpl. apply user_records_idemp.
Qed.

(** X3. A sync rebuilds the system actions from scratch: from two
    registries with the same user records, [sync_db] ends the same way and
    leaves the same registry, whatever system records each held before. *)
Theorem sync_db_from_user_records w w' :
  user_records (registry w) = user_records (registry w') ->
  (sync w).1 = (sync w').1 /\ registry (sync w).2 = registry (sync w').2.
Proof.
  intros H. rewrite !sync_db_run.
  apply (step_det _ (sync_step_register_action_classes get_public_fields
                       mgr all_generators)).
  simpl. done.
Qed.

Lemma plugins_loop_effect xs :
  sync_effect (fun _ => True) (fun _ => True)
    (for_each xs (register_plugin get_public_fields mgr)).
Proof.
  apply sync_effect_for_each. intros x _.
  by apply sync_effect_register_plugin.
Qed.

Lemma plugins_loop_record n e' attrs xs :
  List.find (fun e => String.eqb (ext_name e) n) (rev mgr) = Some e' ->
  get_public_fields (ext_plugin e') = inr attrs ->
  forall w,
    (registry w !! n = None \/ registry w !! n = Some (plugin_record e' attrs)) ->
    (for_each xs (register_plugin get_public_fields mgr) w).1 = inr tt ->
    let w' := (for_each xs (register_plugin get_public_fields mgr) w).2 in
    (registry w' !! n = None \/ registry w' !! n = Some (plugin_record e' attrs)) /\
    (n ∈ xs -> registry w' !! n = Some (plugin_record e' attrs)).
Proof.
  intros F G. destruct (mgr_getitem_found n e' F) as (_ & _ & Hn).
  induction xs as [|x xs IH]; intros w HI Hrun; simpl in *.
  - split; [done|]. intros H. by apply elem_of_nil in H.
  - unfold bind in *.
    destruct (register_plugin get_public_fields mgr x w) as [[e|[]] w1] eqn:R;
      simpl in *; [done|].
    assert (HI1 : (registry w1 !! n = None \/
                   registry w1 !! n = Some (plugin_record e' attrs)) /\
                  (x = n -> registry w1 !! n = Some (plugin_record e' attrs))).
    { destruct (decide (x = n)) as [Hx|Hne]; [subst x|].
      - rewrite (register_plugin_run n e' w F), G, register_in_db_run in R.
        simpl in R. injection R as <-.
        assert (registry
                  match registry w !! n with
                  | Some _ => emit (EvCreateAction (plugin_record e' attrs)) w
                  | None =>
                      with_registry
                        (<[n := plugin_record e' attrs]> (registry w))
                        (emit (EvCreateAction (plugin_record e' attrs)) w)
                  end !! n = Some (plugin_record e' attrs)) as H.
        { destruct HI as [HI|HI]; rewrite HI; simpl; [|done].
          by rewrite lookup_insert_eq. }
        unfold plugin_record in *. rewrite Hn in *. split; [by right|done].
      - pose proof (eff_touches _ _ _ (sync_effect_register_plugin_any x) w n) as Ht.
        rewrite R in Ht. simpl in Ht. destruct Ht as [Ht|Ht]; [|done].
        rewrite Ht. split; [done|]. intros; done. }
    destruct HI1 as [HI1 HI1'].
    destruct (IH w1 HI1 Hrun) as [IH1 IH2]. split; [done|].
    intros Hin. apply elem_of_cons in Hin as [->|Hin]; [|by apply IH2].
    by apply (eff_keeps _ _ _ (plugins_loop_effect xs)), HI1'.
Qed.

Lemma plugins_loop_fails n e' what xs w :
  List.find (fun e => String.eqb (ext_name e) n) (rev mgr) = Some e' ->
  get_public_fields (ext_plugin e') = inl what ->
  n ∈ xs ->
  (for_each xs (register_plugin get_public_fields mgr) w).1 <> inr tt.
Proof.
  intros F G. revert w. induction xs as [|x xs IH]; intros w Hin; simpl.
  - by apply elem_of_nil in Hin.
  - unfold bind.
    destruct (register_plugin get_public_fields mgr x w) as [[e|[]] w1] eqn:R;
      simpl; [done|].
    apply elem_of_cons in Hin as [Hx|Hin]; [subst x|by apply IH].
    rewrite (register_plugin_run n e' w F), G in R. done.
Qed.

(** X7. What a sync stores for a plugin. When [sync_db] returns and no
    user record has the name [n], the record under [n] is the one built
    from [mgr[n]]: the entry point target with [':'] replaced by ['.'] as
    class, the extracted public fields as attributes, no description,
    [is_system] true; and [get_action_class] then resolves [n] to that
    class and those attributes. *)
Theorem sync_db_plugin_record w n e' :
  (mgr_getitem mgr n w).1 = inr e' ->
  user_records (registry w) !! n = None ->
  (sync w).1 = inr tt ->
  exists attrs,
    get_public_fields (ext_plugin e') = inr attrs /\
    registry (sync w).2 !! n = Some (plugin_record e' attrs) /\
    (get_action_class n (sync w).2).1 =
      inr (Some (construct_action_class
                   (str_replace ":"%char "."%char (entry_point_target e'))
                   attrs)).
Proof.
  intros Hget Hu. unfold mgr_getitem in Hget.
  destruct (List.find (fun e => String.eqb (ext_name e) n) (rev mgr))
    as [e0|] eqn:F; simpl in Hget; [|done].
  injection Hget as ->.
  destruct (mgr_getitem_found n e' F) as (_ & Hin & Hn).
  assert (Hnames : n ∈ mgr_names mgr).
  { unfold mgr_names. apply list_elem_of_fmap. eauto. }
  rewrite sync_db_cases. simpl. unfold bind.
  set (w0 := emit EvBegin _).
  pose proof (plugins_loop_fails n e') as Hfail.
  pose proof (plugins_loop_record n e') as Hrec.
  destruct (get_public_fields (ext_plugin e')) as [what|attrs] eqn:G.
  - specialize (Hfail what (mgr_names mgr) w0 F eq_refl Hnames).
    destruct (for_each _ _ w0) as [[e|[]] w1]; simpl in *; done.
  - specialize (Hrec attrs (mgr_names mgr) F eq_refl w0 (or_introl Hu)).
    destruct (for_each _ _ w0) as [[e|[]] w1]; simpl in *; [done|].
    destruct (Hrec eq_refl) as [_ Hr]. specialize (Hr Hnames).
    pose proof (eff_keeps _ _ _
      (sync_effect_register_dynamic (fun _ => True) (fun _ => True)
         (fun _ _ => I) (fun _ _ => I)) w1 n _ Hr) as Hk.
    destruct (_register_dynamic_action_classes _ _ w1) as [[e|[]] w2];
      simpl in *; [done|].
    intros _. exists attrs. split; [done|]. split; [done|].
    rewrite get_action_class_run. simpl. by rewrite Hk.
Qed.

End SyncEffects.


(** X20. The action context always carries the task's workbook name,
    execution id, id, name and tags; it carries ['openstack'] exactly when
    the platform context is truthy, so an empty one is left out. *)
Theorem get_action_context_keys t openstack_context :
  exists d, _get_action_context t openstack_context = VDict d /\
    dict_get d "workbook_name" = Some (VStr (workbook_name t)) /\
    dict_get d "execution_id" = Some (VStr (execution_id t)) /\
    dict_get d "task_id" = Some (VStr (task_id t)) /\
    dict_get d "task_name" = Some (VStr (task_name t)) /\
    dict_get d "task_tags" = Some (task_tags t) /\
    dict_get d "openstack" =
      (if truthy openstack_context then Some openstack_context else None).
Proof.
  unfold _get_action_context. eexists. split; [reflexivity|].
  destruct (truthy openstack_context); repeat split; reflexivity.
Qed.

(** X8. Registering then resolving: after [_register_action_in_db] under
    a free name, [get_action_class] resolves the name to the class and
    attributes just registered; under a taken name it resolves to the
    record that was there, the first registration winning. *)
Theorem register_then_resolve nm cls attrs descr w :
  (get_action_class nm (_register_action_in_db nm cls attrs descr w).2).1 =
    inr (Some (match registry w !! nm with
               | Some r => construct_action_class (action_class r) (attributes r)
               | None => construct_action_class cls attrs
               end)).
Proof.
  rewrite register_in_db_run, get_action_class_run. simpl.
  destruct (registry w !! nm) as [r|] eqn:Hr; simpl.
  - by rewrite Hr.
  - by rewrite lookup_insert_eq.
Qed.

(** ** Sync, then create *)

Section SyncThenCreate.

Context {plugin : Type}.
Variable get_public_fields : plugin -> string + value.
Variable mgr : list (@extension plugin).
Variable all_generators : list (@generator plugin).
Variable get_full_action_name : value -> string.
Variable get_action_spec : value -> action_spec.
Variable getargspec_init : action_cls -> exn + list string.
Variable getargspec_none : exn + list string.
Variable init_raises : action_cls -> pydict -> option string.
Variable adhoc_raises :
  value -> action_cls -> action_spec -> pydict -> option exn.
Variable str_db_task : db_task -> string.

Local Abbreviation sync := (sync_db get_public_fields mgr all_generators).
Local Abbreviation create :=
  (create_action get_full_action_name get_action_spec getargspec_init
     getargspec_none init_raises adhoc_raises str_db_task).


End SyncThenCreate.

(** ** The model at concrete inputs *)

(** C1. The delete of [sync_db] is not part of the unit of work of
    [register_action_classes]: a sync that fails at the second plugin, after
    [std.echo] was inserted anew, ends with the insert undone and the delete
    kept. The system actions [std.echo] and [std.http] that were registered
    before are gone; the registry is not the one before the attempt. *)
Theorem sync_db_failure_drops_system_records :
  let before := sample_world echo_task in
  let after :=
    sync_db sample_get_public_fields failing_mgr sample_generators before in
  after.1 = inl (Raised "boom") /\
  registry before !! "std.http" = Some http_record /\
  registry before !! "std.echo" = Some echo_record /\
  registry after.2 !! "std.http" = None /\
  registry after.2 !! "std.echo" = None /\
  registry after.2 = user_records (registry before).
Proof.
  simpl. repeat split; vm_compute; reflexivity.
Qed.

(** C2. A task naming no registered action and carrying no ad-hoc
    specification, with a platform context in [in_context] and [None] for
    parameters: [create_action] ends in [AttributeError], not in the
    unknown-action [ActionException]. *)
Theorem create_action_unknown_attribute_error :
  let w := sample_world unknown_task_without_parameters in
  registry w !! sample_full_action_name (task_spec (task w)) = None /\
  truthy (raw_action_spec (task w)) = false /\
  (create_action sample_full_action_name sample_action_spec sample_getargspec
     py27_getargspec_none sample_init_raises sample_adhoc_raises sample_str_db_task w).1
    = inl (AttributeError "'NoneType' object has no attribute 'update'") /\
  (create_action sample_full_action_name sample_action_spec sample_getargspec
     py34_getargspec_none sample_init_raises sample_adhoc_raises sample_str_db_task w).1
    = inl (AttributeError "'NoneType' object has no attribute 'update'").
Proof. simpl. repeat split; vm_compute; reflexivity. Qed.

(** C3. An ad-hoc specification whose base class is not registered:
    [resolve_adhoc_action_name] raises the base-class [ActionException], but
    [_create_adhoc_action] calls [_has_action_context_param] on the missing
    class before it tests it, and with the [inspect] of Python 2.7 ends in
    [TypeError], which [create_action] passes on. *)
Theorem create_adhoc_missing_base_type_error :
  let w := sample_world adhoc_task_missing_base in
  let not_a_function :=
    TypeError
      "<method-wrapper '__init__' of NoneType object> is not a Python function" in
  registry w !! clazz (sample_action_spec (raw_action_spec (task w))) = None /\
  (resolve_adhoc_action_name sample_workbook "demo.orphan" w).1
    = inl (ActionException
             "Ad-hoc action base class is not registered [workbook=<Workbook wb>, action=demo.orphan, base_class=None]") /\
  (_create_adhoc_action sample_full_action_name sample_action_spec
     sample_getargspec py27_getargspec_none sample_adhoc_raises VNone w).1 = inl not_a_function /\
  (create_action sample_full_action_name sample_action_spec sample_getargspec
     py27_getargspec_none sample_init_raises sample_adhoc_raises sample_str_db_task w).1
    = inl not_a_function.
Proof. simpl. repeat split; vm_compute; reflexivity. Qed.

(** C4, as stated, fails. An unknown action with a platform context fails
    with the unknown-action error and leaves ['openstack'] behind in the
    task's parameters; a registered class that takes the context leaves
    ['action_context'] behind in them. *)
Lemma create_action_rewrites_parameters :
  let run t :=
    create_action sample_full_action_name sample_action_spec sample_getargspec
      py27_getargspec_none sample_init_raises sample_adhoc_raises sample_str_db_task
      (sample_world t) in
  (run unknown_task).1
    = inl (ActionException
             "Unknown action [workbook_name=wb, action=nonexistent.action]") /\
  parameters unknown_task = Some [("x", VInt 1)] /\
  parameters (task (run unknown_task).2)
    = Some [("x", VInt 1); ("openstack", openstack_ctx_sample)] /\
  parameters http_task = Some [("url", VStr "http://host")] /\
  parameters (task (run http_task).2)
    = Some [("url", VStr "http://host");
            ("action_context",
             VDict [("workbook_name", VStr "wb"); ("execution_id", VStr "exec-1");
                    ("task_id", VStr "task-1"); ("task_name", VStr "task1");
                    ("task_tags", VList [VStr "foo"])])] /\
  ~ (parameters (task (run unknown_task).2) = parameters unknown_task).
Proof.
  simpl. repeat split; try (vm_compute; reflexivity).
  vm_compute. discriminate.
Qed.

(** C6, as stated, fails. At an output transform that is present but
    empty, [{}], the base result [{"a": 1}] comes back, and not the
    evaluation of the transform, which an evaluator that returns a tree
    without expressions as it is gives as [{}]; and whatever the evaluator,
    no evaluation is made. *)
Lemma convert_result_present_empty_transform :
  let result := VDict [("a", VInt 1)] in
  let w := sample_world echo_task in
  get_action sample_workbook "demo.bare" = Some bare_spec /\
  output bare_spec = VDict [] /\
  (convert_adhoc_action_result sample_evaluate sample_workbook "demo.bare"
     result w).1 = inr result /\
  sample_evaluate (output bare_spec) result = VDict [] /\
  ~ ((convert_adhoc_action_result sample_evaluate sample_workbook "demo.bare"
        result w).1 = inr (sample_evaluate (output bare_spec) result)) /\
  (forall evaluate_recursively,
     convert_adhoc_action_result evaluate_recursively sample_workbook
       "demo.bare" result w
     <> (inr (evaluate_recursively (output bare_spec) result),
         emit (EvEvaluate (output bare_spec) result) w)).
Proof.
  simpl. repeat split; try reflexivity.
  - vm_compute. discriminate.
  - intros ev H. vm_compute in H. discriminate H.
Qed.

(** [create_action_frame] at a registered class that takes no context,
    with no platform context: the task is left as it was. *)
Lemma create_action_frame_witness :
  task (create_action sample_full_action_name sample_action_spec
          sample_getargspec py27_getargspec_none sample_init_raises
          sample_adhoc_raises sample_str_db_task (sample_world echo_task)).2 = echo_task.
Proof.
  pose proof (create_action_frame sample_full_action_name sample_action_spec
                sample_getargspec py27_getargspec_none sample_init_raises
                sample_adhoc_raises sample_str_db_task (sample_world echo_task)) as H.
  simpl in H. destruct H as (_ & _ & _ & _ & H). apply H.
  - reflexivity.
  - intros r args Hr G.
    assert (E : sample_registry !! "std.echo" = Some echo_record)
      by (vm_compute; reflexivity).
    rewrite E in Hr. injection Hr as <-. injection G as <-.
    apply (bool_decide_eq_false_1 _). vm_compute. reflexivity.
Defined.

(** [convert_params_spec] at an ad-hoc action without base parameters: the
    call parameters [{"x": 1}] are not forwarded. *)
Lemma convert_params_witness :
  convert_adhoc_action_params sample_evaluate sample_workbook "demo.bare"
    (VDict [("x", VInt 1)]) (sample_world echo_task)
  = (inr (VDict []), sample_world echo_task).
Proof.
  exact (proj1 (convert_params_spec sample_evaluate sample_workbook "demo.bare"
                  bare_spec (VDict [("x", VInt 1)]) (sample_world echo_task)
                  eq_refl) eq_refl).
Defined.

(** [convert_result_spec] at an ad-hoc action without output transform:
    the base result [{"a": 1}] comes back. *)
Lemma convert_result_witness :
  convert_adhoc_action_result sample_evaluate sample_workbook "demo.plain"
    (VDict [("a", VInt 1)]) (sample_world echo_task)
  = (inr (VDict [("a", VInt 1)]), sample_world echo_task).
Proof.
  exact (proj1 (convert_result_spec sample_evaluate sample_workbook
                  "demo.plain" plain_spec (VDict [("a", VInt 1)])
                  (sample_world echo_task) eq_refl) eq_refl).
Defined.

(** [convert_result_empty_transform] at the output transform [{}]. *)
Lemma convert_result_empty_transform_witness :
  output bare_spec = VDict [] /\
  convert_adhoc_action_result sample_evaluate sample_workbook "demo.bare"
    (VDict [("a", VInt 1)]) (sample_world echo_task)
  = (inr (VDict [("a", VInt 1)]), sample_world echo_task).
Proof.
  split; [reflexivity|].
  apply (convert_result_empty_transform sample_evaluate sample_workbook
           "demo.bare" bare_spec (VDict [("a", VInt 1)])
           (sample_world echo_task)).
  - reflexivity.
  - discriminate.
  - reflexivity.
Defined.

(** [duplicate_registration_is_benign] at [std.echo], already registered. *)
Lemma duplicate_registration_witness :
  _register_action_in_db "std.echo" "mistral.actions.std_actions.EchoAction"
    (VDict []) None (sample_world echo_task)
  = (inr tt, emit (EvCreateAction echo_record) (sample_world echo_task)).
Proof.
  apply (proj1 (duplicate_registration_is_benign sample_get_public_fields
                  repeating_mgr sample_generators)).
  exists echo_record. vm_compute. reflexivity.
Defined.

(** [context_injection_gated] at [std.http], whose constructor names
    [action_context], and at [std.echo], whose constructor does not. *)
Lemma context_injection_witness :
  let run t :=
    create_action sample_full_action_name sample_action_spec sample_getargspec
      py27_getargspec_none sample_init_raises sample_adhoc_raises sample_str_db_task
      (sample_world t) in
  (run http_task).1
    = inr (Instance
             (construct_action_class "mistral.actions.std_actions.HTTPAction"
                (VDict []))
             [("url", VStr "http://host");
              ("action_context",
               VDict [("workbook_name", VStr "wb");
                      ("execution_id", VStr "exec-1");
                      ("task_id", VStr "task-1"); ("task_name", VStr "task1");
                      ("task_tags", VList [VStr "foo"])])]) /\
  (run echo_task).1
    = inr (Instance
             (construct_action_class "mistral.actions.std_actions.EchoAction"
                (VDict []))
             [("output", VStr "hi")]).
Proof.
  simpl. split.
  - assert (E : registry (sample_world http_task) !! "std.http" = Some http_record)
      by (vm_compute; reflexivity).
    rewrite (proj2 (proj1 (context_injection_gated sample_full_action_name
                             sample_action_spec sample_getargspec
                             py27_getargspec_none sample_init_raises
                             sample_adhoc_raises sample_str_db_task
                             (sample_world http_task))
                      http_record ["self"; "action_context"; "url"] E eq_refl)).
    vm_compute. reflexivity.
  - assert (E : registry (sample_world echo_task) !! "std.echo" = Some echo_record)
      by (vm_compute; reflexivity).
    rewrite (proj2 (proj1 (context_injection_gated sample_full_action_name
                             sample_action_spec sample_getargspec
                             py27_getargspec_none sample_init_raises
                             sample_adhoc_raises sample_str_db_task
                             (sample_world echo_task))
                      echo_record ["self"; "output"] E eq_refl)).
    vm_compute. reflexivity.
Defined.

(** [sync_db_failure_registry] at the failing discovery. *)
Lemma sync_db_failure_registry_witness :
  registry (sync_db sample_get_public_fields failing_mgr sample_generators
              (sample_world echo_task)).2
  = user_records sample_registry.
Proof.
  apply (sync_db_failure_registry sample_get_public_fields failing_mgr
           sample_generators (sample_world echo_task) (Raised "boom")).
  vm_compute. reflexivity.
Defined.

(** [create_action_unknown] at an unknown action whose task has a
    parameters mapping. *)
Lemma create_action_unknown_witness :
  (create_action sample_full_action_name sample_action_spec sample_getargspec
     py27_getargspec_none sample_init_raises sample_adhoc_raises sample_str_db_task
     (sample_world unknown_task)).1
  = inl (ActionException
           "Unknown action [workbook_name=wb, action=nonexistent.action]").
Proof.
  apply (create_action_unknown sample_full_action_name sample_action_spec
           sample_getargspec py27_getargspec_none sample_init_raises
           sample_adhoc_raises sample_str_db_task (sample_world unknown_task)).
  - vm_compute. reflexivity.
  - reflexivity.
  - intros _. eexists. reflexivity.
Defined.

(** [resolve_adhoc_action_name_unregistered] at [demo.orphan]. *)
Lemma resolve_adhoc_action_name_unregistered_witness :
  (resolve_adhoc_action_name sample_workbook "demo.orphan"
     (sample_world echo_task)).1
  = inl (ActionException
           "Ad-hoc action base class is not registered [workbook=<Workbook wb>, action=demo.orphan, base_class=None]").
Proof.
  apply (resolve_adhoc_action_name_unregistered sample_workbook "demo.orphan"
           orphan_spec (sample_world echo_task)).
  - reflexivity.
  - vm_compute. reflexivity.
Defined.

(** [create_adhoc_unregistered_base] where [inspect] accepts the slot
    wrapper of [None]. *)
Lemma create_adhoc_unregistered_base_witness :
  (_create_adhoc_action sample_full_action_name sample_action_spec
     sample_getargspec py34_getargspec_none sample_adhoc_raises VNone
     (sample_world adhoc_task_missing_base)).1
  = inl (ActionException
           "Ad-hoc action base class is not registered [workbook_name=wb, action=demo.greet, base_class=None]").
Proof.
  apply (create_adhoc_unregistered_base sample_full_action_name
           sample_action_spec sample_getargspec py34_getargspec_none sample_adhoc_raises VNone
           (sample_world adhoc_task_missing_base)).
  - reflexivity.
  - vm_compute. reflexivity.
Defined.

(** ** Further properties at concrete inputs *)

Lemma sync_db_from_user_records_witness :
  registry (sync_db sample_get_public_fields repeating_mgr sample_generators
              (sample_world echo_task)).2
  = registry (sync_db sample_get_public_fields repeating_mgr sample_generators
                user_only_world).2.
Proof.
  apply (sync_db_from_user_records sample_get_public_fields repeating_mgr
           sample_generators (sample_world echo_task) user_only_world).
  vm_compute. reflexivity.
Defined.

Lemma sync_db_system_records_discovered_witness :
  discovered_name repeating_mgr sample_generators "nova.servers_list".
Proof.
  apply (sync_db_system_records_discovered sample_get_public_fields
           repeating_mgr sample_generators (sample_world echo_task)
           "nova.servers_list" nova_record).
  - vm_compute. reflexivity.
  - reflexivity.
Defined.

Lemma sync_db_raises_only_discovery_witness :
  discovery_raised sample_get_public_fields failing_mgr sample_generators
    (Raised "boom").
Proof.
  apply (sync_db_raises_only_discovery sample_get_public_fields failing_mgr
           sample_generators (sample_world echo_task)).
  vm_compute. reflexivity.
Defined.

Lemma sync_db_plugin_record_witness :
  exists attrs,
    sample_get_public_fields (ext_plugin echo_extension) = inr attrs /\
    registry (sync_db sample_get_public_fields repeating_mgr sample_generators
                (sample_world echo_task)).2 !! "std.echo"
      = Some (plugin_record echo_extension attrs) /\
    (get_action_class "std.echo"
       (sync_db sample_get_public_fields repeating_mgr sample_generators
          (sample_world echo_task)).2).1
      = inr (Some (construct_action_class
                     (str_replace ":"%char "."%char
                        (entry_point_target echo_extension)) attrs)).
Proof.
  apply (sync_db_plugin_record sample_get_public_fields repeating_mgr
           sample_generators (sample_world echo_task) "std.echo"
           echo_extension).
  - reflexivity.
  - vm_compute. reflexivity.
  - vm_compute. reflexivity.
Defined.

Lemma create_action_unknown_without_parameters_witness :
  create_action sample_full_action_name sample_action_spec sample_getargspec
    py34_getargspec_none sample_init_raises sample_adhoc_raises sample_str_db_task
    (sample_world unknown_task_without_parameters)
  = (inl (AttributeError "'NoneType' object has no attribute 'update'"),
     emit (EvGetAction "nonexistent.action")
       (sample_world unknown_task_without_parameters)).
Proof.
  apply (create_action_unknown_without_parameters sample_full_action_name
           sample_action_spec sample_getargspec py34_getargspec_none
           sample_init_raises sample_adhoc_raises sample_str_db_task
           (sample_world unknown_task_without_parameters)).
  - vm_compute. reflexivity.
  - reflexivity.
  - reflexivity.
Defined.


Lemma create_action_returns_witness :
  registry (sample_world adhoc_task) !! "demo.greet" = None /\
  truthy (raw_action_spec adhoc_task) = true /\
  sample_action_spec (VDict [("class", VStr "std.echo")])
    = sample_action_spec (raw_action_spec adhoc_task) /\
  exists r,
    registry (sample_world adhoc_task)
      !! clazz (sample_action_spec (VDict [("class", VStr "std.echo")]))
      = Some r /\
    construct_action_class "mistral.actions.std_actions.EchoAction" (VDict [])
      = construct_action_class (action_class r) (attributes r).
Proof.
  apply (create_action_returns sample_full_action_name sample_action_spec
           sample_getargspec py27_getargspec_none sample_init_raises
           sample_adhoc_raises sample_str_db_task (sample_world adhoc_task)
           (AdHocAction VNone
              (construct_action_class "mistral.actions.std_actions.EchoAction"
                 (VDict []))
              (sample_action_spec (VDict [("class", VStr "std.echo")]))
              [("who", VStr "Ann")])).
  vm_compute. reflexivity.
Defined.


Lemma convert_adhoc_action_missing_spec_witness :
  convert_adhoc_action_params sample_evaluate sample_workbook "demo.nothing"
    (VDict [("x", VInt 1)]) (sample_world echo_task)
  = (inl (AttributeError "'NoneType' object has no attribute 'base_parameters'"),
     sample_world echo_task).
Proof.
  exact (proj1 (convert_adhoc_action_missing_spec sample_evaluate
                  sample_workbook "demo.nothing" (VDict [("x", VInt 1)])
                  (sample_world echo_task) eq_refl)).
Defined.

